(** * Session and request-client core of the OsheenOracle admin dashboard

    A shallow embedding of the client-side session subsystem of the
    dashboard: the axios request client of [utils/api.ts] with its two
    interceptors, the [AuthProvider] context and the [ProtectedLayout]
    route guard of [components/ProtectedRoute.tsx], the login form of
    [app/login/page.tsx], and the header and sidebar components that fetch
    the profile and log out.

    The code is effectful JavaScript.  It is embedded as programs in a
    state-and-exception monad over an explicit [World]: the browser tab
    (local storage, session storage, location), the default headers of the
    axios instance, and append-only logs of what the code emits (request
    configurations handed to the transport, navigations, console lines,
    toasts, timers).  Each asynchronous function performs exactly one
    network call; the reply of the remote API to that call is an argument
    of the embedded function. *)

From Stdlib Require Import Ascii NArith.
From stdpp Require Import base option strings list gmap.

Local Open Scope string_scope.

(** ** JavaScript values used by the code *)

(** Strings are sequences of code units; this development covers code
    units below 256.  Truthiness of a string: non-empty. *)
Definition str_truthy (s : string) : bool :=
  match s with
  | EmptyString => false
  | String _ _ => true
  end.

(** Truthiness of [string | null]: [null] and the empty string are falsy. *)
Definition truthy (o : option string) : bool :=
  match o with
  | Some s => str_truthy s
  | None => false
  end.

(** A flat object literal with string fields, e.g. [{ email, password }]. *)
Definition Payload : Type := list (string * string).

Definition payload_get (k : string) (p : Payload) : option string :=
  snd <$> List.find (λ kv, bool_decide (kv.1 = k)) p.

(** ** Requests, replies and errors *)

Inductive Method : Type := GET | POST | PUT | DELETE.

(** The request configuration axios hands to its transport once the
    request interceptors have run. *)
Record Request : Type := mkRequest {
  req_baseURL : string;
  req_method : Method;
  req_url : string;
  req_params : option Payload;
  req_headers : gmap string string;
  req_data : option Payload;
}.

(** [error.response]: present when the server answered with a status
    outside 2xx, absent on a transport failure. *)
Record ErrResponse : Type := mkErrResponse {
  status : N;
  data : option Payload;
}.

Record AxiosError : Type := mkAxiosError {
  response : option ErrResponse;
  message : string;
}.

(** [error.response?.status] *)
Definition response_status (e : AxiosError) : option N :=
  status <$> response e.

(** What the remote API answers to one call. *)
Inductive Reply (T : Type) : Type :=
| Success (d : T)
| Failure (e : AxiosError).
Arguments Success {T} d.
Arguments Failure {T} e.

(** ** The world *)

Inductive Nav : Type :=
| LocationReplace (url : string)   (* window.location.replace(url) *)
| RouterReplace (url : string)     (* router.replace(url) *)
| RouterPush (url : string).       (* router.push(url) *)

Inductive Toast : Type :=
| ToastError (msg : string)
| ToastSuccess (msg : string).

(** [console.error(label, detail)]; the detail is either an object or a
    string. *)
Inductive ConsoleDetail : Type :=
| DetailObject (p : Payload)
| DetailString (s : string)
| DetailError (e : AxiosError).

(** [setTimeout(() => { if (isMounted.current) router.push(url) }, ms)] *)
Record Timer : Type := mkTimer {
  timer_ms : N;
  timer_push : string;
}.

Record World : Type := mkWorld {
  window_defined : bool;                  (* typeof window !== "undefined" *)
  localStorage : gmap string string;
  sessionStorage : gmap string string;
  pathname : string;                      (* window.location.pathname *)
  onLine : bool;                          (* navigator.onLine *)
  defaults_common : gmap string string;   (* api.defaults.headers.common *)
  sent : list Request;
  navs : list Nav;
  console : list (string * ConsoleDetail);
  toasts : list Toast;
  timers : list Timer;
}.

Definition set_localStorage (f : gmap string string → gmap string string) (w : World) : World :=
  mkWorld (window_defined w) (f (localStorage w)) (sessionStorage w) (pathname w)
          (onLine w) (defaults_common w) (sent w) (navs w) (console w) (toasts w) (timers w).

Definition set_sessionStorage (f : gmap string string → gmap string string) (w : World) : World :=
  mkWorld (window_defined w) (localStorage w) (f (sessionStorage w)) (pathname w)
          (onLine w) (defaults_common w) (sent w) (navs w) (console w) (toasts w) (timers w).

Definition set_defaults_common (f : gmap string string → gmap string string) (w : World) : World :=
  mkWorld (window_defined w) (localStorage w) (sessionStorage w) (pathname w)
          (onLine w) (f (defaults_common w)) (sent w) (navs w) (console w) (toasts w) (timers w).

Definition add_sent (r : Request) (w : World) : World :=
  mkWorld (window_defined w) (localStorage w) (sessionStorage w) (pathname w)
          (onLine w) (defaults_common w) (sent w ++ [r]) (navs w) (console w) (toasts w) (timers w).

Definition add_nav (n : Nav) (w : World) : World :=
  mkWorld (window_defined w) (localStorage w) (sessionStorage w) (pathname w)
          (onLine w) (defaults_common w) (sent w) (navs w ++ [n]) (console w) (toasts w) (timers w).

Definition add_console (l : string * ConsoleDetail) (w : World) : World :=
  mkWorld (window_defined w) (localStorage w) (sessionStorage w) (pathname w)
          (onLine w) (defaults_common w) (sent w) (navs w) (console w ++ [l]) (toasts w) (timers w).

Definition add_toast (t : Toast) (w : World) : World :=
  mkWorld (window_defined w) (localStorage w) (sessionStorage w) (pathname w)
          (onLine w) (defaults_common w) (sent w) (navs w) (console w) (toasts w ++ [t]) (timers w).

Definition add_timer (t : Timer) (w : World) : World :=
  mkWorld (window_defined w) (localStorage w) (sessionStorage w) (pathname w)
          (onLine w) (defaults_common w) (sent w) (navs w) (console w) (toasts w) (timers w ++ [t]).

(** ** Programs: state passing with exceptions *)

Inductive Outcome (A : Type) : Type :=
| Resolved (a : A)
| Thrown (e : AxiosError).
Arguments Resolved {A} a.
Arguments Thrown {A} e.

Definition Prog (S A : Type) : Type := S → Outcome A * S.

Definition ret {S A} (a : A) : Prog S A := λ s, (Resolved a, s).

Definition throw {S A} (e : AxiosError) : Prog S A := λ s, (Thrown e, s).

Definition bind {S A B} (m : Prog S A) (k : A → Prog S B) : Prog S B :=
  λ s, match m s with
       | (Resolved a, s') => k a s'
       | (Thrown e, s') => (Thrown e, s')
       end.

Notation "x <- m ;; k" := (bind m (λ x, k))
  (at level 100, m at next level, right associativity).
Notation "m ;; k" := (bind m (λ _, k))
  (at level 100, right associativity).

(** [try { body } catch (err) { handler }] *)
Definition try_catch {S A} (body : Prog S A) (handler : AxiosError → Prog S A) : Prog S A :=
  λ s, match body s with
       | (Resolved a, s') => (Resolved a, s')
       | (Thrown e, s') => handler e s'
       end.

(** [try { body } finally { fin }]: the finaliser runs on both exits and
    the outcome of the body is kept unless the finaliser itself throws. *)
Definition try_finally {S A} (body : Prog S A) (fin : Prog S unit) : Prog S A :=
  λ s, match body s with
       | (o, s') =>
           match fin s' with
           | (Resolved _, s'') => (o, s'')
           | (Thrown e, s'') => (Thrown e, s'')
           end
       end.

Definition gets {S A} (f : S → A) : Prog S A := λ s, (Resolved (f s), s).

Definition modify {S} (f : S → S) : Prog S unit := λ s, (Resolved tt, f s).

(** A program of the request client run by a component with local state
    [C] (React state and refs). *)
Definition liftW {C A} (m : Prog World A) : Prog (C * World) A :=
  λ cw, match m cw.2 with
        | (o, w') => (o, (cw.1, w'))
        end.

Definition getC {C} : Prog (C * World) C := gets fst.

Definition setC {C} (f : C → C) : Prog (C * World) unit :=
  modify (λ cw, (f cw.1, cw.2)).

(** [await m] in a component: while the call is in flight the rest of the
    page keeps running and may change the component's refs; [during] is
    that change. *)
Definition awaitC {C A} (m : Prog World A) (during : C → C) : Prog (C * World) A :=
  λ cw, match m cw.2 with
        | (o, w') => (o, (during cw.1, w'))
        end.

(** ** Browser primitives

    Storage and location belong to the browser: code that touches them
    without testing [typeof window] runs in event handlers and effects,
    that is, in a tab.  The properties of such code are stated for worlds
    with [window_defined w = true].  A navigation is logged when it is
    requested; the location itself changes once the navigation completes,
    after the running handler has returned. *)

Definition typeof_window_defined : Prog World bool := gets window_defined.

Definition localStorage_getItem (k : string) : Prog World (option string) :=
  gets (λ w, localStorage w !! k).

Definition localStorage_setItem (k v : string) : Prog World unit :=
  modify (set_localStorage (insert k v)).

Definition localStorage_removeItem (k : string) : Prog World unit :=
  modify (set_localStorage (delete k)).

Definition localStorage_clear : Prog World unit :=
  modify (set_localStorage (λ _, ∅)).

Definition sessionStorage_clear : Prog World unit :=
  modify (set_sessionStorage (λ _, ∅)).

Definition location_pathname : Prog World string := gets pathname.

Definition location_replace (url : string) : Prog World unit :=
  modify (add_nav (LocationReplace url)).

Definition router_replace (url : string) : Prog World unit :=
  modify (add_nav (RouterReplace url)).

Definition router_push (url : string) : Prog World unit :=
  modify (add_nav (RouterPush url)).

Definition console_error (label : string) (d : ConsoleDetail) : Prog World unit :=
  modify (add_console (label, d)).

Definition toast_error (msg : string) : Prog World unit :=
  modify (add_toast (ToastError msg)).

Definition toast_success (msg : string) : Prog World unit :=
  modify (add_toast (ToastSuccess msg)).

Definition setTimeout_push_if_mounted (url : string) (ms : N) : Prog World unit :=
  modify (add_timer (mkTimer ms url)).

(** ** utils/api.ts *)

Module Api.

Definition API_BASE_URL : string := "https://osheenoraclebackend-1.onrender.com/api".

(** The [headers] option of [axios.create]. *)
Definition instance_headers : gmap string string :=
  {[ "Content-Type" := "application/json" ]}.

Definition bearer (token : string) : string := "Bearer " +:+ token.

Definition set_header (k v : string) (c : Request) : Request :=
  mkRequest (req_baseURL c) (req_method c) (req_url c) (req_params c)
            (<[k := v]> (req_headers c)) (req_data c).

(** Request interceptor: add the token from localStorage. *)
Definition request_interceptor (config : Request) : Prog World Request :=
  isBrowser <- typeof_window_defined ;;
  if (isBrowser : bool) then
    token <- localStorage_getItem "token" ;;
    if truthy token then
      ret (set_header "Authorization" (bearer (default "" token)) config)
    else ret config
  else ret config.

(** Response interceptor, rejected branch: handle 401 errors. *)
Definition response_interceptor_rejected {T} (error : AxiosError) : Prog World T :=
  (if bool_decide (response_status error = Some 401%N) then
     isBrowser <- typeof_window_defined ;;
     if (isBrowser : bool) then
       currentPath <- location_pathname ;;
       if bool_decide (currentPath ≠ "/login") then
         localStorage_removeItem "token" ;;
         localStorage_removeItem "user" ;;
         location_replace "/login"
       else ret tt
     else ret tt
   else ret tt) ;;
  throw error.

(** Response interceptor, fulfilled branch: [(response) => response]. *)
Definition response_interceptor_fulfilled {T} (d : T) : Prog World T := ret d.

(** Set token dynamically. *)
Definition setAuthToken (token : option string) : Prog World unit :=
  if truthy token then
    modify (set_defaults_common (<["Authorization" := bearer (default "" token)]>))
  else
    modify (set_defaults_common (delete "Authorization")).

(** What axios does for [api.get], [api.post], [api.put], [api.delete]:
    the per-call headers are laid over the instance headers and over
    [defaults.headers.common] into a configuration of this call's own,
    the request interceptor runs on it, the result is handed to the
    transport, and the reply goes through the response interceptor. *)
Definition merged_headers (call_headers : option (gmap string string)) (w : World)
  : gmap string string :=
  default ∅ call_headers ∪ instance_headers ∪ defaults_common w.

Definition dispatch (m : Method) (url : string) (params : option Payload)
    (headers : option (gmap string string)) (body : option Payload) : Prog World Request :=
  common <- gets (merged_headers headers) ;;
  config <- request_interceptor (mkRequest API_BASE_URL m url params common body) ;;
  modify (add_sent config) ;;
  ret config.

Definition settle {T} (reply : Reply T) : Prog World T :=
  match reply with
  | Success d => response_interceptor_fulfilled d
  | Failure e => response_interceptor_rejected e
  end.

Definition request {T} (m : Method) (url : string) (params : option Payload)
    (headers : option (gmap string string)) (body : option Payload)
    (reply : Reply T) : Prog World T :=
  dispatch m url params headers body ;;
  settle reply.

(** [err.response?.data || err.message] *)
Definition error_detail (err : AxiosError) : ConsoleDetail :=
  match response err with
  | Some r =>
      match data r with
      | Some d => DetailObject d
      | None => DetailString (message err)
      end
  | None => DetailString (message err)
  end.

Definition fetchData {T} (endpoint : string) (params : option Payload) (noCache : bool)
    (reply : Reply T) : Prog World T :=
  try_catch
    (let headers :=
       if noCache then Some ({[ "Cache-Control" := "no-cache" ]} : gmap string string)
       else None in
     request GET endpoint params headers None reply)
    (λ err,
       console_error "GET Error:" (error_detail err) ;;
       throw err).

Definition postData {T} (endpoint : string) (body : Payload) (reply : Reply T)
  : Prog World T :=
  try_catch
    (request POST endpoint None None (Some body) reply)
    (λ err,
       console_error "POST Error:" (error_detail err) ;;
       throw err).

Definition putData {T} (endpoint : string) (body : Payload) (reply : Reply T)
  : Prog World T :=
  try_catch
    (request PUT endpoint None None (Some body) reply)
    (λ err,
       console_error "PUT Error:" (error_detail err) ;;
       throw err).

Definition deleteData {T} (endpoint : string) (reply : Reply T) : Prog World T :=
  try_catch
    (request DELETE endpoint None None None reply)
    (λ err,
       console_error "DELETE Error:" (error_detail err) ;;
       throw err).

End Api.

(** ** String helpers of the login form *)

Module Js.

(** White space and line terminators among the code units below 256:
    TAB, LF, VT, FF, CR, SPACE and NO-BREAK SPACE.  This is both the class
    [\s] of regular expressions and what [String.prototype.trim] strips. *)
Definition is_space (c : ascii) : bool :=
  let n := N_of_ascii c in
  (N.leb 9 n && N.leb n 13) || N.eqb n 32 || N.eqb n 160.

Fixpoint trimStart (s : string) : string :=
  match s with
  | EmptyString => EmptyString
  | String c r => if is_space c then trimStart r else s
  end.

Fixpoint trimEnd (s : string) : string :=
  match s with
  | EmptyString => EmptyString
  | String c r =>
      match trimEnd r with
      | EmptyString => if is_space c then EmptyString else String c EmptyString
      | r' => String c r'
      end
  end.

Definition trim (s : string) : string := trimEnd (trimStart s).

(** Regular expressions over code units, matched by derivatives. *)
Inductive RegExp : Type :=
| Never
| Empty
| Class (p : ascii → bool)
| Cat (r1 r2 : RegExp)
| Alt (r1 r2 : RegExp)
| Star (r : RegExp).

(** [r+] *)
Definition Plus (r : RegExp) : RegExp := Cat r (Star r).

Fixpoint nullable (r : RegExp) : bool :=
  match r with
  | Never => false
  | Empty => true
  | Class _ => false
  | Cat r1 r2 => nullable r1 && nullable r2
  | Alt r1 r2 => nullable r1 || nullable r2
  | Star _ => true
  end.

Fixpoint deriv (c : ascii) (r : RegExp) : RegExp :=
  match r with
  | Never => Never
  | Empty => Never
  | Class p => if p c then Empty else Never
  | Cat r1 r2 =>
      if nullable r1 then Alt (Cat (deriv c r1) r2) (deriv c r2)
      else Cat (deriv c r1) r2
  | Alt r1 r2 => Alt (deriv c r1) (deriv c r2)
  | Star r1 => Cat (deriv c r1) (Star r1)
  end.

(** [/^r$/.test(s)]: the whole of [s] is matched by [r]. *)
Fixpoint test (r : RegExp) (s : string) : bool :=
  match s with
  | EmptyString => nullable r
  | String c s' => test (deriv c r) s'
  end.

Definition lit (a : ascii) : RegExp := Class (λ c, bool_decide (c = a)).

End Js.

(** ** components/ProtectedRoute.tsx: the route guard *)

Module ProtectedRoute.

(** The render phase: derive the state synchronously from localStorage. *)
Definition isAuthenticated (w : World) : bool :=
  let token := if window_defined w then localStorage w !! "token" else None in
  truthy token.

(** What the component returns: [null] or the children. *)
Definition render {V} (children : V) (w : World) : option V :=
  if negb (isAuthenticated w) then None else Some children.

(** The effect, run once after the render that mounts the component. *)
Definition effect (authenticated : bool) : Prog World unit :=
  if negb authenticated then router_replace "/login" else ret tt.

Definition mount {V} (children : V) : Prog World (option V) :=
  authenticated <- gets isAuthenticated ;;
  out <- gets (render children) ;;
  effect authenticated ;;
  ret out.

End ProtectedRoute.

(** ** The session context ([AuthProvider]) *)

Record User : Type := mkUser {
  user_id : string;      (* _id *)
  user_name : string;
  user_email : string;
  user_role : string;
}.

(** The body of a successful [/auth/login] answer. *)
Record LoginResponse : Type := mkLoginResponse {
  resp_token : string;
  resp_user : User;
}.

Definition credentials (email password : string) : Payload :=
  [("email", email); ("password", password)].

Module AuthContext.

Record AuthState : Type := mkAuthState {
  user : option User;
  token : option string;
  isLoading : bool;
}.

Definition setUser (u : option User) : Prog (AuthState * World) unit :=
  setC (λ a, mkAuthState u (token a) (isLoading a)).

Definition setToken (t : option string) : Prog (AuthState * World) unit :=
  setC (λ a, mkAuthState (user a) t (isLoading a)).

Definition setIsLoading (b : bool) : Prog (AuthState * World) unit :=
  setC (λ a, mkAuthState (user a) (token a) b).

Section WithJSON.

(** [JSON.stringify] on user records. *)
Variable JSON_stringify : User → string.

(** Login function.  Its type is [Promise<void>]: it resolves with no
    value. *)
Definition login (email password : string) (reply : Reply LoginResponse)
  : Prog (AuthState * World) unit :=
  setIsLoading true ;;
  try_finally
    (try_catch
       (response <- liftW (Api.postData "/auth/login" (credentials email password) reply) ;;
        liftW (localStorage_setItem "token" (resp_token response)) ;;
        liftW (localStorage_setItem "user" (JSON_stringify (resp_user response))) ;;
        setUser (Some (resp_user response)) ;;
        setToken (Some (resp_token response)) ;;
        liftW (Api.setAuthToken (Some (resp_token response))))
       (λ err, throw err))
    (setIsLoading false).

End WithJSON.

(** Logout function. *)
Definition logout : Prog (AuthState * World) unit :=
  liftW (localStorage_removeItem "token") ;;
  liftW (localStorage_removeItem "user") ;;
  setUser None ;;
  setToken None ;;
  liftW (Api.setAuthToken None) ;;
  liftW (router_push "/login").

End AuthContext.

(** ** app/login/page.tsx: the login form *)

Module LoginPage.

Record FormData : Type := mkFormData {
  email : string;
  password : string;
}.

Record State : Type := mkState {
  isMounted : bool;          (* isMounted.current *)
  formData : FormData;
  showPassword : bool;
  loading : bool;
  isCheckingAuth : bool;
}.

Definition setLoading (b : bool) : Prog (State * World) unit :=
  setC (λ s, mkState (isMounted s) (formData s) (showPassword s) b (isCheckingAuth s)).

(** The cleanup effect: [isMounted.current = false]. *)
Definition unmount (s : State) : State :=
  mkState false (formData s) (showPassword s) (loading s) (isCheckingAuth s).

(** [/^[^\s@]+@[^\s@]+\.[^\s@]+$/] *)
Definition notSpaceAt : Js.RegExp :=
  Js.Class (λ c, negb (Js.is_space c || bool_decide (c = "@"%char))).

Definition emailRegex : Js.RegExp :=
  Js.Cat (Js.Plus notSpaceAt)
    (Js.Cat (Js.lit "@")
       (Js.Cat (Js.Plus notSpaceAt)
          (Js.Cat (Js.lit ".") (Js.Plus notSpaceAt)))).

Definition body_of (f : FormData) : Payload := credentials (email f) (password f).

(** [err.response?.data?.message || "Login failed. Please try again."] *)
Definition failure_message (err : AxiosError) : string :=
  let m :=
    match response err with
    | Some r =>
        match data r with
        | Some d => payload_get "message" d
        | None => None
        end
    | None => None
    end in
  if truthy m then default "" m else "Login failed. Please try again.".

Section WithJSON.

Variable JSON_stringify : User → string.

(** Handle form submission.  [unmounts] tells whether the page is
    unmounted while the login request is in flight.  The submit event is
    only used for [e.preventDefault()], which touches nothing modelled
    here. *)
Definition handleSubmit (reply : Reply LoginResponse) (unmounts : bool)
  : Prog (State * World) unit :=
  s <- getC ;;
  if loading s then ret tt else
  (* Basic validation *)
  if negb (str_truthy (Js.trim (email (formData s))))
     || negb (str_truthy (Js.trim (password (formData s)))) then
    liftW (toast_error "Please fill in all fields")
  else
  if negb (Js.test emailRegex (email (formData s))) then
    liftW (toast_error "Please enter a valid email address")
  else
  setLoading true ;;
  try_finally
    (try_catch
       (response <- awaitC (Api.postData "/auth/login" (body_of (formData s)) reply)
                           (if unmounts then unmount else id) ;;
        s1 <- getC ;;
        if negb (isMounted s1) then ret tt else
        liftW (localStorage_setItem "token" (resp_token response)) ;;
        liftW (localStorage_setItem "user" (JSON_stringify (resp_user response))) ;;
        liftW (Api.setAuthToken (Some (resp_token response))) ;;
        liftW (toast_success "Login successful! Redirecting...") ;;
        liftW (setTimeout_push_if_mounted "/dashboard" 1000))
       (λ err,
          s1 <- getC ;;
          if negb (isMounted s1) then ret tt else
          liftW (console_error "Login error:" (DetailError err)) ;;
          if bool_decide (response_status err = Some 401%N) then
            liftW (toast_error "Invalid email or password")
          else if bool_decide (response_status err = Some 500%N) then
            liftW (toast_error "Server error. Please try again later.")
          else
            online <- liftW (gets onLine) ;;
            if negb online then liftW (toast_error "No internet connection")
            else liftW (toast_error (failure_message err))))
    (s2 <- getC ;;
     if isMounted s2 then setLoading false else ret tt).

End WithJSON.

End LoginPage.

(** ** The header component *)

Module Header.

Record UserData : Type := mkUserData {
  ud_id : string;               (* _id *)
  ud_name : string;
  ud_email : string;
  ud_phone : option string;
  ud_avatar : option string;
  ud_role : option string;
  ud_createdAt : string;
  ud_updatedAt : string;
}.

Record State : Type := mkState {
  userData : option UserData;
  loading : bool;
}.

Definition setUserData (u : option UserData) : Prog (State * World) unit :=
  setC (λ s, mkState u (loading s)).

Definition setLoading (b : bool) : Prog (State * World) unit :=
  setC (λ s, mkState (userData s) b).

(** The default data set if the API fails; [now1] and [now2] are the two
    readings of [new Date().toISOString()]. *)
Definition default_user (now1 now2 : string) : UserData :=
  mkUserData "default-id" "Admin User" "admin@astro.com" None None (Some "Admin") now1 now2.

(** Fetch user profile from API. *)
Definition fetchUserProfile (reply : Reply UserData) (now1 now2 : string)
  : Prog (State * World) unit :=
  try_finally
    (try_catch
       (setLoading true ;;
        d <- liftW (Api.fetchData "/auth/profile" None true reply) ;;
        setUserData (Some d))
       (λ error,
          liftW (console_error "Failed to fetch user profile:" (DetailError error)) ;;
          (* If unauthorized, redirect to login *)
          (if bool_decide (response_status error = Some 401%N) then
             liftW (localStorage_clear ;; location_replace "/login")
           else ret tt) ;;
          (* Set default data if API fails *)
          setUserData (Some (default_user now1 now2))))
    (setLoading false).

(** Handle logout. *)
Definition handleLogout {T} (reply : Reply T) : Prog World unit :=
  try_finally
    (try_catch
       ((* Call logout API *)
        Api.fetchData "/auth/logout" (Some [("method", "POST")]) true reply ;;
        ret tt)
       (λ error, console_error "Logout API error:" (DetailError error)))
    ((* Clear all storage *)
     localStorage_clear ;;
     sessionStorage_clear ;;
     (* Redirect to login *)
     location_replace "/login").

End Header.

(** ** The sidebar component *)

Module Sidebar.

Record UserProfile : Type := mkUserProfile {
  up_id : string;               (* _id *)
  up_name : string;
  up_email : string;
  up_phone : option string;
  up_avatar : option string;
  up_role : option string;
  up_addresses : option (list Payload);
  up_createdAt : option string;
  up_updatedAt : option string;
}.

Record State : Type := mkState {
  user : option UserProfile;
  loading : bool;
  showProfileModal : bool;
}.

Definition setUser (u : option UserProfile) : Prog (State * World) unit :=
  setC (λ s, mkState u (loading s) (showProfileModal s)).

Definition setLoading (b : bool) : Prog (State * World) unit :=
  setC (λ s, mkState (user s) b (showProfileModal s)).

Definition setShowProfileModal (b : bool) : Prog (State * World) unit :=
  setC (λ s, mkState (user s) (loading s) b).

Definition getProfile (reply : Reply UserProfile) : Prog World UserProfile :=
  try_catch
    (Api.fetchData "/auth/profile" None true reply)
    (λ error,
       console_error "Profile fetch error:" (DetailError error) ;;
       throw error).

Definition dummy_user : UserProfile :=
  mkUserProfile "694a82e83d22a29abf6776ab" "Dummy User" "dummy@gmail.com"
                None None None (Some [])
                (Some "2025-12-23T11:54:16.111Z") (Some "2025-12-23T11:54:16.111Z").

Definition fetchUserProfile (reply : Reply UserProfile) : Prog (State * World) unit :=
  try_finally
    (try_catch
       (setLoading true ;;
        profile <- liftW (getProfile reply) ;;
        setUser (Some profile))
       (λ error,
          liftW (console_error "Failed to fetch profile:" (DetailError error)) ;;
          setUser (Some dummy_user)))
    (setLoading false).

Definition handleLogout {T} (reply : Reply T) : Prog (State * World) unit :=
  try_catch
    (liftW (Api.fetchData "/auth/logout" (Some [("method", "POST")]) true reply) ;;
     liftW (localStorage_removeItem "token") ;;
     liftW (localStorage_removeItem "authToken") ;;
     liftW (localStorage_removeItem "user") ;;
     liftW (Api.setAuthToken None) ;;
     setUser None ;;
     setShowProfileModal false ;;
     liftW (router_push "/login"))
    (λ error,
       liftW (console_error "Logout error:" (DetailError error)) ;;
       liftW localStorage_clear ;;
       liftW (router_push "/login")).

End Sidebar.

(** ** The landing page *)

Module HomePage.

(** The effect run on mount: send the visitor on, by the stored token. *)
Definition effect : Prog World unit :=
  token <- localStorage_getItem "token" ;;
  if truthy token then
    (* Logged in: redirect to dashboard *)
    router_replace "/dashboard"
  else
    (* Not logged in: redirect to login *)
    router_replace "/login".

End HomePage.

(** ** app/login/page.tsx: the check made when the login page mounts *)

Module LoginCheck.

Definition setIsCheckingAuth (b : bool) : Prog (LoginPage.State * World) unit :=
  setC (λ s, LoginPage.mkState (LoginPage.isMounted s) (LoginPage.formData s)
               (LoginPage.showPassword s) (LoginPage.loading s) b).

(** The effect that checks if the user is already logged in.  It reads
    the token at once and hands it to a callback scheduled 100 ms later;
    the result is the token the callback holds, or [None] when no timer
    was set. *)
Definition effect : Prog (LoginPage.State * World) (option (option string)) :=
  isBrowser <- liftW typeof_window_defined ;;
  if negb isBrowser then
    setIsCheckingAuth false ;;
    ret None
  else
    token <- liftW (localStorage_getItem "token") ;;
    ret (Some token).

Definition delay : N := 100.

(** The scheduled callback, holding the token read by the effect. *)
Definition timeout (token : option string) : Prog (LoginPage.State * World) unit :=
  s <- getC ;;
  if truthy token && LoginPage.isMounted s then
    liftW (router_replace "/dashboard")
  else if LoginPage.isMounted s then
    setIsCheckingAuth false
  else ret tt.

(** The effect followed by its callback; [between] is what the rest of
    the page does to the world during the 100 ms.  The cleanup of the
    effect clears the timer, so the callback only runs on a page that is
    still mounted. *)
Definition run (between : World → World) : Prog (LoginPage.State * World) unit :=
  scheduled <- effect ;;
  match scheduled with
  | Some token =>
      modify (λ sw, (sw.1, between sw.2)) ;;
      s <- getC ;;
      if LoginPage.isMounted s then timeout token else ret tt
  | None => ret tt
  end.

End LoginCheck.

(** ** The session context on mount, and the dashboard layout *)

Module AuthMount.

(** How the effect of [AuthProvider] ends. *)
Inductive Restore : Type :=
| Restored        (* token and user were stored and put back *)
| NoSession       (* one of them was missing *)
| SyntaxError.    (* [JSON.parse] threw on the stored user *)

Section WithJSON.

(** [JSON.parse] on a stored user record; [None] when it throws. *)
Variable JSON_parse : string → option User.

(** Check localStorage on mount. *)
Definition effect : Prog (AuthContext.AuthState * World) Restore :=
  storedToken <- liftW (localStorage_getItem "token") ;;
  storedUser <- liftW (localStorage_getItem "user") ;;
  if truthy storedToken && truthy storedUser then
    AuthContext.setToken storedToken ;;
    match JSON_parse (default "" storedUser) with
    | Some u =>
        AuthContext.setUser (Some u) ;;
        liftW (Api.setAuthToken storedToken) ;;
        AuthContext.setIsLoading false ;;
        ret Restored
    | None => ret SyntaxError
    end
  else
    AuthContext.setIsLoading false ;;
    ret NoSession.

End WithJSON.

End AuthMount.

Module DashboardLayout.

Inductive View (V : Type) : Type :=
| Spinner
| Nothing
| Page (children : V).
Arguments Spinner {V}.
Arguments Nothing {V}.
Arguments Page {V} children.

Definition render {V} (children : V) (a : AuthContext.AuthState) : View V :=
  if AuthContext.isLoading a then Spinner
  else if negb (bool_decide (is_Some (AuthContext.user a))) then Nothing
  else Page children.

(** Protect dashboard. *)
Definition effect (a : AuthContext.AuthState) : Prog World unit :=
  if negb (AuthContext.isLoading a) && negb (bool_decide (is_Some (AuthContext.user a))) then
    router_push "/login"
  else ret tt.

End DashboardLayout.

(** ** The logout button of the profile page *)

Module Profile.

Definition logout_click : Prog World unit :=
  localStorage_clear ;;
  router_push "/login".

End Profile.

(** ** The search box of the header *)

Module Search.

Local Open Scope N_scope.

(** The query is a sequence of UTF-16 code units, each below 65536:
    [encodeURIComponent] depends on how surrogates are paired. *)

(** White space and line terminators, what [trim] strips. *)
Definition is_space (u : N) : bool :=
  (N.leb 9 u && N.leb u 13) || N.eqb u 32 || N.eqb u 160
  || N.eqb u 5760 || (N.leb 8192 u && N.leb u 8202)
  || N.eqb u 8232 || N.eqb u 8233 || N.eqb u 8239 || N.eqb u 8287
  || N.eqb u 12288 || N.eqb u 65279.

Fixpoint trimStart (q : list N) : list N :=
  match q with
  | [] => []
  | u :: r => if is_space u then trimStart r else q
  end.

Fixpoint trimEnd (q : list N) : list N :=
  match q with
  | [] => []
  | u :: r =>
      match trimEnd r with
      | [] => if is_space u then [] else [u]
      | r' => u :: r'
      end
  end.

Definition trim (q : list N) : list N := trimEnd (trimStart q).

(** Truthiness of a string: non-empty. *)
Definition nonempty (q : list N) : bool :=
  match q with
  | [] => false
  | _ :: _ => true
  end.

(** The code units [encodeURIComponent] leaves as they are: letters,
    digits and [- _ . ! ~ * ' ( )]. *)
Definition unreserved (u : N) : bool :=
  (N.leb 65 u && N.leb u 90) || (N.leb 97 u && N.leb u 122)
  || (N.leb 48 u && N.leb u 57)
  || existsb (N.eqb u) [45; 95; 46; 33; 126; 42; 39; 40; 41]%N.

Definition is_lead (u : N) : bool := N.leb 55296 u && N.leb u 56319.

Definition is_trail (u : N) : bool := N.leb 56320 u && N.leb u 57343.

Definition hex_digit (n : N) : ascii :=
  ascii_of_N (if N.ltb n 10 then 48 + n else 55 + n).

(** [%HH] for one octet. *)
Definition percent (b : N) : string :=
  String "%" (String (hex_digit (b / 16)) (String (hex_digit (b mod 16)) EmptyString)).

(** The octets of the UTF-8 form of a code point. *)
Definition utf8 (cp : N) : list N :=
  if N.ltb cp 128 then [cp]
  else if N.ltb cp 2048 then [192 + cp / 64; 128 + cp mod 64]
  else if N.ltb cp 65536 then
    [224 + cp / 4096; 128 + (cp / 64) mod 64; 128 + cp mod 64]
  else
    [240 + cp / 262144; 128 + (cp / 4096) mod 64; 128 + (cp / 64) mod 64;
     128 + cp mod 64].

Definition escape (cp : N) : string :=
  foldr (λ b acc, percent b +:+ acc) EmptyString (utf8 cp).

(** The code point of a surrogate pair. *)
Definition pair_code_point (lead trail : N) : N :=
  (lead - 55296) * 1024 + (trail - 56320) + 65536.

(** [encodeURIComponent]; [None] when it throws a URIError, which it does
    on a surrogate that is not part of a pair. *)
Fixpoint encodeURIComponent (q : list N) : option string :=
  match q with
  | [] => Some EmptyString
  | u :: r =>
      if unreserved u then
        String (ascii_of_N u) <$> encodeURIComponent r
      else if is_lead u then
        match r with
        | v :: r' =>
            if is_trail v then
              (λ rest, escape (pair_code_point u v) +:+ rest) <$> encodeURIComponent r'
            else None
        | [] => None
        end
      else if is_trail u then None
      else (λ rest, escape u +:+ rest) <$> encodeURIComponent r
  end.

(** How the handler ends: normally, or with the URIError that leaves it
    uncaught. *)
Inductive Ending : Type :=
| Returned
| URIError.

(** Handle search; [searchQuery] is the state of the search box.  The
    argument of [router.push] is evaluated before the call, so nothing is
    pushed when the encoding throws. *)
Definition handleSearch (searchQuery : list N) : Prog World Ending :=
  if nonempty (trim searchQuery) then
    match encodeURIComponent searchQuery with
    | Some encoded =>
        router_push ("/dashboard/search?q=" +:+ encoded) ;;
        ret Returned
    | None => ret URIError
    end
  else ret Returned.

End Search.

(** ** The profile helpers *)

Module ProfileApi.

(** [getProfile] and [updateProfile]; [T] stands for the profile record,
    which these functions only pass on. *)
Definition getProfile {T} (reply : Reply T) : Prog World T :=
  try_catch
    (Api.fetchData "/auth/profile" None true reply)
    (λ error,
       console_error "Profile fetch error:" (DetailError error) ;;
       throw error).

Definition updateProfile {T} (body : Payload) (reply : Reply T) : Prog World T :=
  try_catch
    (Api.putData "/auth/profile" body reply)
    (λ error,
       console_error "Profile update error:" (DetailError error) ;;
       throw error).

End ProfileApi.

(** * Properties *)

(** ** Vocabulary *)

(** The credential as the code reads it: the stored token, when it is a
    non-empty string ([Boolean(token)], [if (token)]). *)
Definition credential (w : World) : option string :=
  match localStorage w !! "token" with
  | Some t => if str_truthy t then Some t else None
  | None => None
  end.

(** The response is a 401 and the tab is not on the login screen. *)
Definition on_401_off_login (e : AxiosError) (w : World) : Prop :=
  response_status e = Some 401%N ∧ pathname w ≠ "/login".

Definition session_cleared (w : World) : Prop :=
  localStorage w !! "token" = None ∧ localStorage w !! "user" = None.

Definition login_redirect_issued (w w' : World) : Prop :=
  navs w' = (navs w ++ [LocationReplace "/login"])%list.

(** The default header of the request client agrees with the stored
    credential. *)
Definition header_matches_store (w : World) : Prop :=
  defaults_common w !! "Authorization" = Api.bearer <$> credential w.

(** What the 401 branch of the response interceptor does to the world. *)
Definition handle_401 (w : World) : World :=
  add_nav (LocationReplace "/login")
    (set_localStorage (delete "user") (set_localStorage (delete "token") w)).

Definition fires_401 (e : AxiosError) (w : World) : bool :=
  bool_decide (response_status e = Some 401%N)
  && window_defined w
  && bool_decide (pathname w ≠ "/login").

Definition after_401 (e : AxiosError) (w : World) : World :=
  if fires_401 e w then handle_401 w else w.

(** The per-call headers of [fetchData]. *)
Definition no_cache (noCache : bool) : option (gmap string string) :=
  if noCache then Some {[ "Cache-Control" := "no-cache" ]} else None.

(** The configuration a call is dispatched with. *)
Definition dispatched_config (m : Method) (url : string) (params : option Payload)
    (headers : option (gmap string string)) (body : option Payload) (w : World) : Request :=
  let config := mkRequest Api.API_BASE_URL m url params (Api.merged_headers headers w) body in
  if window_defined w && truthy (localStorage w !! "token") then
    Api.set_header "Authorization" (Api.bearer (default "" (localStorage w !! "token"))) config
  else config.

(** The error contract of a request helper run in world [w] with result
    [r]: the error is rethrown as it is, and the session is cleared with a
    redirect to the login screen exactly on a 401 away from that screen. *)
Definition error_contract {T} (e : AxiosError) (w : World) (r : Outcome T * World) : Prop :=
  r.1 = Thrown e
  ∧ (session_cleared r.2 ∧ login_redirect_issued w r.2 ↔ on_401_off_login e w)
  ∧ (on_401_off_login e w →
       localStorage r.2 = delete "user" (delete "token" (localStorage w)))
  ∧ (¬ on_401_off_login e w →
       localStorage r.2 = localStorage w ∧ navs r.2 = navs w).

(** ** The effects of the handlers on the world *)

(** The [Authorization] value a call dispatched in [w] carries: the stored
    credential when there is one, else whatever the default headers of the
    client hold. *)
Definition authorization_at (w : World) : option string :=
  match credential w with
  | Some t => Some (Api.bearer t)
  | None => defaults_common w !! "Authorization"
  end.

(** A header of the request dispatched last. *)
Definition last_header (k : string) (w : World) : option string :=
  match last (sent w) with
  | Some r => req_headers r !! k
  | None => None
  end.

(** What a successful login writes: token and user into local storage,
    and the default header through [setAuthToken]. *)
Definition persist_session (tok ujson : string) (w : World) : World :=
  set_defaults_common
    (if str_truthy tok then <["Authorization" := Api.bearer tok]> else delete "Authorization")
    (set_localStorage (<["user" := ujson]>) (set_localStorage (<["token" := tok]>) w)).

(** What [AuthProvider.logout] does to the world. *)
Definition drop_session (w : World) : World :=
  add_nav (RouterPush "/login")
    (set_defaults_common (delete "Authorization")
       (set_localStorage (delete "user") (set_localStorage (delete "token") w))).

(** The two validation tests of the login form, as [handleSubmit] makes
    them. *)
Definition fields_filled (s : LoginPage.State) : bool :=
  str_truthy (Js.trim (LoginPage.email (LoginPage.formData s)))
  && str_truthy (Js.trim (LoginPage.password (LoginPage.formData s))).

Definition email_well_formed (s : LoginPage.State) : bool :=
  Js.test LoginPage.emailRegex (LoginPage.email (LoginPage.formData s)).

(** The toast the form shows for a failed login. *)
Definition failure_toast (e : AxiosError) (w : World) : Toast :=
  if bool_decide (response_status e = Some 401%N) then
    ToastError "Invalid email or password"
  else if bool_decide (response_status e = Some 500%N) then
    ToastError "Server error. Please try again later."
  else if negb (onLine w) then ToastError "No internet connection"
  else ToastError (LoginPage.failure_message e).

(** What the [finally] block of the header's logout does to the world. *)
Definition wipe_and_reload (w : World) : World :=
  add_nav (LocationReplace "/login")
    (set_sessionStorage (λ _, ∅) (set_localStorage (λ _, ∅) w)).

(** The requests of the logout and profile calls. *)
Definition logout_request (w : World) : Request :=
  dispatched_config GET "/auth/logout" (Some [("method", "POST")]) (no_cache true) None w.

Definition profile_request (w : World) : Request :=
  dispatched_config GET "/auth/profile" None (no_cache true) None w.

(** The router has completed a navigation to [p]. *)
Definition arrive_at (p : string) (w : World) : World :=
  mkWorld (window_defined w) (localStorage w) (sessionStorage w) p
          (onLine w) (defaults_common w) (sent w) (navs w) (console w) (toasts w) (timers w).

(** ** Vocabulary of the further properties *)

(** Programs run one after the other. *)
Fixpoint run_all {S} (ps : list (Prog S unit)) : Prog S unit :=
  match ps with
  | [] => ret tt
  | p :: rest => p ;; run_all rest
  end.

(** The request has the shape the caller asked for. *)
Definition request_shape (m : Method) (endpoint : string) (params body : option Payload)
    (r : Request) : Prop :=
  req_baseURL r = Api.API_BASE_URL
  ∧ req_method r = m
  ∧ req_url r = endpoint
  ∧ req_params r = params
  ∧ req_data r = body.

(** Nothing but the log of requests differs between [w] and [w']. *)
Definition only_sent_differs (w w' : World) : Prop :=
  window_defined w' = window_defined w
  ∧ localStorage w' = localStorage w
  ∧ sessionStorage w' = sessionStorage w
  ∧ pathname w' = pathname w
  ∧ defaults_common w' = defaults_common w
  ∧ navs w' = navs w
  ∧ console w' = console w
  ∧ toasts w' = toasts w
  ∧ timers w' = timers w.

(** What the success path of the sidebar's logout does to the world. *)
Definition sidebar_drop_session (w : World) : World :=
  add_nav (RouterPush "/login")
    (set_defaults_common (delete "Authorization")
       (set_localStorage (delete "user")
          (set_localStorage (delete "authToken")
             (set_localStorage (delete "token") w)))).

(** The login page once it has been unmounted in the middle of a
    submission. *)
Definition left_mid_submission (s : LoginPage.State) : LoginPage.State :=
  LoginPage.mkState false (LoginPage.formData s) (LoginPage.showPassword s) true
                    (LoginPage.isCheckingAuth s).

Definition login_request (s : LoginPage.State) (w : World) : Request :=
  dispatched_config POST "/auth/login" None None
    (Some (LoginPage.body_of (LoginPage.formData s))) w.

(** The login page once its check has found nobody logged in. *)
Definition check_done (s : LoginPage.State) : LoginPage.State :=
  LoginPage.mkState (LoginPage.isMounted s) (LoginPage.formData s)
                    (LoginPage.showPassword s) (LoginPage.loading s) false.

(** Every code unit of the string passes the test. *)
Fixpoint all_chars (p : ascii → bool) (s : string) : bool :=
  match s with
  | EmptyString => true
  | String c r => p c && all_chars p r
  end.

Definition first_char (s : string) : option ascii :=
  match s with
  | EmptyString => None
  | String c _ => Some c
  end.

Fixpoint last_char (s : string) : option ascii :=
  match s with
  | EmptyString => None
  | String c EmptyString => Some c
  | String _ r => last_char r
  end.

(** The language of a regular expression. *)
Inductive Matches : Js.RegExp → string → Prop :=
| MEmpty : Matches Js.Empty ""
| MClass p c : p c = true → Matches (Js.Class p) (String c "")
| MCat r1 r2 s1 s2 :
    Matches r1 s1 → Matches r2 s2 → Matches (Js.Cat r1 r2) (s1 +:+ s2)
| MAltL r1 r2 s : Matches r1 s → Matches (Js.Alt r1 r2) s
| MAltR r1 r2 s : Matches r2 s → Matches (Js.Alt r1 r2) s
| MStarNil r : Matches (Js.Star r) ""
| MStarApp r s1 s2 :
    Matches r s1 → Matches (Js.Star r) s2 → Matches (Js.Star r) (s1 +:+ s2).

(** A character allowed in each part of an email: neither white space
    nor "@". *)
Definition email_char (c : ascii) : bool :=
  negb (Js.is_space c || bool_decide (c = "@"%char)).

(** A character that cannot end or split a query value in a URL: an
    unreserved one, or the percent sign of an escape. *)
Definition url_safe (c : ascii) : bool :=
  Search.unreserved (N_of_ascii c) || bool_decide (c = "%"%char).

(** Every surrogate of the query is part of a pair, lead then trail. *)
Fixpoint well_paired (q : list N) : bool :=
  match q with
  | [] => true
  | u :: r =>
      if Search.is_lead u then
        match r with
        | v :: r' => Search.is_trail v && well_paired r'
        | [] => false
        end
      else negb (Search.is_trail u) && well_paired r
  end.

(** [local@domain.tld] with three non-empty parts free of white space and
    of "@". *)
Definition email_shape (s : string) : Prop :=
  ∃ a b d, s = a +:+ "@" +:+ b +:+ "." +:+ d
           ∧ a ≠ "" ∧ b ≠ "" ∧ d ≠ ""
           ∧ all_chars email_char a = true
           ∧ all_chars email_char b = true
           ∧ all_chars email_char d = true.

(** ** Sample data *)

Definition alice : User := mkUser "u1" "Alice" "user@example.com" "admin".
Definition bob : User := mkUser "u2" "Bob" "bob@example.com" "admin".

(** A serialiser used to run the examples. *)
Definition sample_stringify (u : User) : string :=
  user_id u +:+ "|" +:+ user_name u +:+ "|" +:+ user_email u +:+ "|" +:+ user_role u.

Definition error_with_status (n : N) : AxiosError :=
  mkAxiosError (Some (mkErrResponse n None)) "Request failed".

Definition network_error : AxiosError := mkAxiosError None "Network Error".

(** A fresh tab on the login screen, nobody logged in. *)
Definition anonymous_on_login : World :=
  mkWorld true ∅ ∅ "/login" true ∅ [] [] [] [] [].

(** A tab on the dashboard with a session for [alice] under token "abc". *)
Definition logged_in_on_dashboard : World :=
  mkWorld true {[ "token" := "abc"; "user" := sample_stringify alice ]} ∅ "/dashboard" true
          {[ "Authorization" := "Bearer abc" ]} [] [] [] [] [].

Definition fresh_provider : AuthContext.AuthState :=
  AuthContext.mkAuthState None None false.

Definition fresh_header : Header.State := Header.mkState None true.

Definition fresh_sidebar : Sidebar.State := Sidebar.mkState None true false.

Definition login_form (e p : string) : LoginPage.State :=
  LoginPage.mkState true (LoginPage.mkFormData e p) false false false.

(** The login form is submitted with good credentials and the API answers
    with token "abc". *)
Definition after_form_login : World :=
  (LoginPage.handleSubmit sample_stringify
     (Success (mkLoginResponse "abc" alice)) false
     (login_form "user@example.com" "secret", anonymous_on_login)).2.2.

(** Then, on the dashboard, the sidebar's logout is clicked and the remote
    logout call fails with a 404. *)
Definition after_sidebar_logout : World :=
  (Sidebar.handleLogout (T:=unit) (Failure (error_with_status 404))
     (fresh_sidebar, arrive_at "/dashboard" after_form_login)).2.2.

(** ** Running the programs *)

Ltac run :=
  unfold Api.fetchData, Api.postData, Api.putData, Api.deleteData, Api.request,
    Api.dispatch, Api.settle, Api.request_interceptor,
    Api.response_interceptor_rejected, Api.response_interceptor_fulfilled,
    Api.setAuthToken,
    typeof_window_defined, localStorage_getItem, localStorage_setItem,
    localStorage_removeItem, localStorage_clear, sessionStorage_clear,
    location_pathname, location_replace, router_replace, router_push,
    console_error, toast_error, toast_success, setTimeout_push_if_mounted,
    liftW, awaitC, getC, setC, try_catch, try_finally, bind, ret, throw, gets, modify in *;
  simpl in *.

(** The string helpers on small inputs. *)

Example emailRegex_accepts :
  Js.test LoginPage.emailRegex "user@example.com" = true
  ∧ Js.test LoginPage.emailRegex "a@b.c.d" = true.
Proof. split; reflexivity. Qed.

Example emailRegex_rejects :
  Js.test LoginPage.emailRegex "bad" = false
  ∧ Js.test LoginPage.emailRegex "a@b@c.d" = false
  ∧ Js.test LoginPage.emailRegex "a b@c.d" = false
  ∧ Js.test LoginPage.emailRegex "a@.d" = false
  ∧ Js.test LoginPage.emailRegex "a@b." = false.
Proof. repeat split; reflexivity. Qed.

Example trim_strips_both_ends :
  Js.trim "  a b  " = "a b" ∧ Js.trim "   " = "" ∧ Js.trim "" = "".
Proof. repeat split; reflexivity. Qed.

(** The request client, call by call. *)

Lemma dispatch_eq m url ps hs body (w : World) :
  Api.dispatch m url ps hs body w =
    (Resolved (dispatched_config m url ps hs body w),
     add_sent (dispatched_config m url ps hs body w) w).
Proof.
  run. unfold dispatched_config.
  destruct (window_defined w); simpl; [destruct (truthy _); simpl|]; reflexivity.
Qed.

Lemma settle_failure_eq {T} (e : AxiosError) (w : World) :
  Api.settle (T:=T) (Failure e) w = (Thrown e, after_401 e w).
Proof.
  run. unfold after_401, fires_401, handle_401.
  destruct (bool_decide (response_status e = _)); simpl; [|reflexivity].
  destruct (window_defined w); simpl; [|reflexivity].
  destruct (bool_decide (pathname w ≠ _)); reflexivity.
Qed.

Lemma request_failure_eq {T} m url ps hs body (e : AxiosError) (w : World) :
  Api.request (T:=T) m url ps hs body (Failure e) w =
    (Thrown e, after_401 e (add_sent (dispatched_config m url ps hs body w) w)).
Proof.
  unfold Api.request, bind. rewrite dispatch_eq, settle_failure_eq. reflexivity.
Qed.

Lemma request_success_eq {T} m url ps hs body (d : T) (w : World) :
  Api.request m url ps hs body (Success d) w =
    (Resolved d, add_sent (dispatched_config m url ps hs body w) w).
Proof.
  unfold Api.request, bind. rewrite dispatch_eq. reflexivity.
Qed.

Lemma fetchData_failure_eq {T} ep ps nc (e : AxiosError) (w : World) :
  Api.fetchData (T:=T) ep ps nc (Failure e) w =
    (Thrown e,
     add_console ("GET Error:", Api.error_detail e)
       (after_401 e (add_sent (dispatched_config GET ep ps (no_cache nc) None w) w))).
Proof.
  unfold Api.fetchData, try_catch. fold (no_cache nc).
  rewrite request_failure_eq. reflexivity.
Qed.

Lemma fetchData_success_eq {T} ep ps nc (d : T) (w : World) :
  Api.fetchData ep ps nc (Success d) w =
    (Resolved d, add_sent (dispatched_config GET ep ps (no_cache nc) None w) w).
Proof.
  unfold Api.fetchData, try_catch. fold (no_cache nc).
  rewrite request_success_eq. reflexivity.
Qed.

Lemma postData_failure_eq {T} ep body (e : AxiosError) (w : World) :
  Api.postData (T:=T) ep body (Failure e) w =
    (Thrown e,
     add_console ("POST Error:", Api.error_detail e)
       (after_401 e (add_sent (dispatched_config POST ep None None (Some body) w) w))).
Proof.
  unfold Api.postData, try_catch. rewrite request_failure_eq. reflexivity.
Qed.

Lemma postData_success_eq {T} ep body (d : T) (w : World) :
  Api.postData ep body (Success d) w =
    (Resolved d, add_sent (dispatched_config POST ep None None (Some body) w) w).
Proof.
  unfold Api.postData, try_catch. rewrite request_success_eq. reflexivity.
Qed.

Lemma putData_failure_eq {T} ep body (e : AxiosError) (w : World) :
  Api.putData (T:=T) ep body (Failure e) w =
    (Thrown e,
     add_console ("PUT Error:", Api.error_detail e)
       (after_401 e (add_sent (dispatched_config PUT ep None None (Some body) w) w))).
Proof.
  unfold Api.putData, try_catch. rewrite request_failure_eq. reflexivity.
Qed.

Lemma deleteData_failure_eq {T} ep (e : AxiosError) (w : World) :
  Api.deleteData (T:=T) ep (Failure e) w =
    (Thrown e,
     add_console ("DELETE Error:", Api.error_detail e)
       (after_401 e (add_sent (dispatched_config DELETE ep None None None w) w))).
Proof.
  unfold Api.deleteData, try_catch. rewrite request_failure_eq. reflexivity.
Qed.

Lemma after_401_defaults (e : AxiosError) (w : World) :
  defaults_common (after_401 e w) = defaults_common w.
Proof. unfold after_401. destruct (fires_401 e w); reflexivity. Qed.

Lemma after_401_sent (e : AxiosError) (w : World) :
  sent (after_401 e w) = sent w.
Proof. unfold after_401. destruct (fires_401 e w); reflexivity. Qed.


Lemma fires_401_true (e : AxiosError) (w : World) :
  window_defined w = true → on_401_off_login e w → fires_401 e w = true.
Proof.
  intros Hw [H401 Hp]. unfold fires_401.
  rewrite Hw, (bool_decide_eq_true_2 _ H401), (bool_decide_eq_true_2 _ Hp).
  reflexivity.
Qed.


Lemma handle_401_cleared (w : World) : session_cleared (handle_401 w).
Proof.
  unfold session_cleared, handle_401. simpl. split.
  - rewrite lookup_delete_ne by done. apply lookup_delete_eq.
  - apply lookup_delete_eq.
Qed.

(** ** The request client: errors *)

Lemma error_contract_after_401 {T} (e : AxiosError) (w : World)
    (cfg : Request) (l : string * ConsoleDetail) :
  window_defined w = true →
  error_contract (T:=T) e w (Thrown e, add_console l (after_401 e (add_sent cfg w))).
Proof.
  intros Hw.
  unfold error_contract, after_401, fires_401, on_401_off_login,
    session_cleared, login_redirect_issued, handle_401.
  simpl. rewrite Hw. simpl.
  destruct (decide (response_status e = Some 401%N)) as [H401|H401];
    [rewrite (bool_decide_eq_true_2 _ H401)|rewrite (bool_decide_eq_false_2 _ H401)];
    simpl.
  - destruct (decide (pathname w ≠ "/login")) as [Hp|Hp];
      [rewrite (bool_decide_eq_true_2 _ Hp)|rewrite (bool_decide_eq_false_2 _ Hp)];
      simpl.
    + split; [reflexivity|]. split; [|tauto].
      split; [tauto|]. intros _. split; [split|reflexivity].
      * rewrite lookup_delete_ne by done. apply lookup_delete_eq.
      * apply lookup_delete_eq.
    + split; [reflexivity|]. split; [|tauto].
      split; [|tauto]. intros [_ Hn]. exfalso.
      apply (f_equal length) in Hn. rewrite length_app in Hn. simpl in Hn. lia.
  - split; [reflexivity|]. split; [|tauto].
    split; [|tauto]. intros [_ Hn]. exfalso.
    apply (f_equal length) in Hn. rewrite length_app in Hn. simpl in Hn. lia.
Qed.

(** C1.  In a browser tab, when the reply to a call made through
    [fetchData], [postData], [putData] or [deleteData] is an error, the
    helper rethrows that very error; the stored token and user record are
    removed and a navigation to the login screen is issued if and only if
    the status is 401 and the current path is not [/login], and otherwise
    local storage and the navigation log are left as they were. *)
Theorem request_helpers_error_contract {T} (e : AxiosError) (w : World)
    (endpoint : string) (params : option Payload) (noCache : bool) (body : Payload) :
  window_defined w = true →
  error_contract e w (Api.fetchData (T:=T) endpoint params noCache (Failure e) w)
  ∧ error_contract e w (Api.postData (T:=T) endpoint body (Failure e) w)
  ∧ error_contract e w (Api.putData (T:=T) endpoint body (Failure e) w)
  ∧ error_contract e w (Api.deleteData (T:=T) endpoint (Failure e) w).
Proof.
  intros Hw.
  rewrite fetchData_failure_eq, postData_failure_eq, putData_failure_eq,
    deleteData_failure_eq.
  split; [|split; [|split]]; apply error_contract_after_401; exact Hw.
Qed.

Lemma request_helpers_error_contract_witness :
  window_defined logged_in_on_dashboard = true
  ∧ error_contract (error_with_status 401) logged_in_on_dashboard
      (Api.fetchData (T:=unit) "/products" None true
         (Failure (error_with_status 401)) logged_in_on_dashboard).
Proof.
  split; [reflexivity|].
  apply (request_helpers_error_contract (T:=unit) (error_with_status 401)
           logged_in_on_dashboard "/products" None true []).
  reflexivity.
Defined.

(** ** The request client: the Authorization header *)

Lemma merged_headers_authorization (hs : option (gmap string string)) (w : World) :
  default ∅ hs !! "Authorization" = None →
  Api.merged_headers hs w !! "Authorization" = defaults_common w !! "Authorization".
Proof.
  intros Hhs. unfold Api.merged_headers.
  rewrite lookup_union_r; [reflexivity|].
  apply lookup_union_None. split; [exact Hhs|].
  unfold Api.instance_headers. apply lookup_singleton_ne. discriminate.
Qed.

Lemma dispatched_config_authorization m url ps hs body (w : World) :
  window_defined w = true →
  default ∅ hs !! "Authorization" = None →
  req_headers (dispatched_config m url ps hs body w) !! "Authorization"
  = authorization_at w.
Proof.
  intros Hw Hhs. unfold dispatched_config, authorization_at, credential.
  rewrite Hw. simpl.
  destruct (localStorage w !! "token") as [t|]; simpl.
  - destruct (str_truthy t); simpl.
    + apply lookup_insert_eq.
    + apply merged_headers_authorization, Hhs.
  - apply merged_headers_authorization, Hhs.
Qed.

Lemma putData_success_eq {T} ep body (d : T) (w : World) :
  Api.putData ep body (Success d) w =
    (Resolved d, add_sent (dispatched_config PUT ep None None (Some body) w) w).
Proof.
  unfold Api.putData, try_catch. rewrite request_success_eq. reflexivity.
Qed.

Lemma deleteData_success_eq {T} ep (d : T) (w : World) :
  Api.deleteData ep (Success d) w =
    (Resolved d, add_sent (dispatched_config DELETE ep None None None w) w).
Proof.
  unfold Api.deleteData, try_catch. rewrite request_success_eq. reflexivity.
Qed.

Lemma dispatched_config_other_header m url ps hs body (w : World) (k : string) :
  k ≠ "Authorization" →
  req_headers (dispatched_config m url ps hs body w) !! k
  = Api.merged_headers hs w !! k.
Proof.
  intros Hk. unfold dispatched_config.
  destruct (window_defined w && truthy _); simpl; [|reflexivity].
  apply lookup_insert_ne. congruence.
Qed.

Lemma last_header_add_sent (k : string) (cfg : Request) (w : World) :
  last_header k (add_sent cfg w) = req_headers cfg !! k.
Proof. unfold last_header. simpl. rewrite last_snoc. reflexivity. Qed.

Lemma last_header_after_failure (k : string) (e : AxiosError) (cfg : Request)
    (l : string * ConsoleDetail) (w : World) :
  last_header k (add_console l (after_401 e (add_sent cfg w))) = req_headers cfg !! k.
Proof.
  unfold last_header. simpl. rewrite after_401_sent. simpl.
  rewrite last_snoc. reflexivity.
Qed.

Lemma no_cache_authorization (nc : bool) :
  default ∅ (no_cache nc) !! "Authorization" = None.
Proof.
  destruct nc; simpl; [|apply lookup_empty].
  apply lookup_singleton_ne. discriminate.
Qed.

Lemma helpers_carry_authorization {T} (reply : Reply T) (ep : string)
    (ps : option Payload) (nc : bool) (body : Payload) (w : World) :
  window_defined w = true →
  last_header "Authorization" (Api.fetchData ep ps nc reply w).2 = authorization_at w
  ∧ last_header "Authorization" (Api.postData ep body reply w).2 = authorization_at w
  ∧ last_header "Authorization" (Api.putData ep body reply w).2 = authorization_at w
  ∧ last_header "Authorization" (Api.deleteData ep reply w).2 = authorization_at w.
Proof.
  intros Hw.
  pose proof (no_cache_authorization nc) as Hnc.
  assert (Hnone : default ∅ (None : option (gmap string string)) !! "Authorization"
                  = None) by apply lookup_empty.
  destruct reply as [d|e].
  - rewrite fetchData_success_eq, postData_success_eq, putData_success_eq,
      deleteData_success_eq. cbn [fst snd].
    rewrite !last_header_add_sent.
    rewrite !dispatched_config_authorization by assumption. repeat split.
  - rewrite fetchData_failure_eq, postData_failure_eq, putData_failure_eq,
      deleteData_failure_eq. cbn [fst snd].
    rewrite !last_header_after_failure.
    rewrite !dispatched_config_authorization by assumption. repeat split.
Qed.

(** A counterexample to C2 as stated: after a login through the form and
    a sidebar logout whose remote call fails, no token is stored, yet the
    next request still carries [Authorization: Bearer abc] from the
    client's default headers. *)
Lemma request_without_token_carries_default_header :
  credential after_sidebar_logout = None
  ∧ localStorage after_sidebar_logout !! "token" = None
  ∧ last_header "Authorization"
      (Api.fetchData "/products" None true (Success tt) after_sidebar_logout).2
    = Some "Bearer abc".
Proof. vm_compute. repeat split; reflexivity. Qed.

(** C2, amended.  In a browser tab, a call that passes no Authorization
    header of its own is dispatched with [Authorization: Bearer t] when a
    non-empty token [t] is stored at that moment, and otherwise with the
    Authorization entry of the client's default headers, if any.  The
    header is bound at dispatch: when the stored token is changed to [t2]
    after a first call and a second call is dispatched, the log holds the
    first request unchanged, followed by the second, which carries the
    value of its own dispatch time.  The requests of the four helpers are
    dispatched this way. *)
Theorem authorization_bound_at_dispatch
    (m1 m2 : Method) (url1 url2 : string) (ps1 ps2 : option Payload)
    (hs1 hs2 : option (gmap string string)) (body1 body2 : option Payload)
    (t2 : string) (w : World) :
  window_defined w = true →
  default ∅ hs1 !! "Authorization" = None →
  default ∅ hs2 !! "Authorization" = None →
  let r1 := Api.dispatch m1 url1 ps1 hs1 body1 w in
  let w2 := (localStorage_setItem "token" t2 r1.2).2 in
  let r2 := Api.dispatch m2 url2 ps2 hs2 body2 w2 in
  ∃ cfg1 cfg2,
    r1.1 = Resolved cfg1
    ∧ sent r1.2 = (sent w ++ [cfg1])%list
    ∧ req_headers cfg1 !! "Authorization" = authorization_at w
    ∧ (∀ t1, credential w = Some t1 →
         req_headers cfg1 !! "Authorization" = Some (Api.bearer t1))
    ∧ (credential w = None →
         req_headers cfg1 !! "Authorization" = defaults_common w !! "Authorization")
    ∧ r2.1 = Resolved cfg2
    ∧ sent r2.2 = (sent w ++ [cfg1; cfg2])%list
    ∧ req_headers cfg2 !! "Authorization" = authorization_at w2
    ∧ (str_truthy t2 = true →
         req_headers cfg2 !! "Authorization" = Some (Api.bearer t2))
    ∧ (∀ (reply : Reply unit) (ep : string) (ps : option Payload) (nc : bool)
         (body : Payload),
         last_header "Authorization" (Api.fetchData ep ps nc reply w).2
         = authorization_at w
         ∧ last_header "Authorization" (Api.postData ep body reply w).2
           = authorization_at w
         ∧ last_header "Authorization" (Api.putData ep body reply w).2
           = authorization_at w
         ∧ last_header "Authorization" (Api.deleteData ep reply w).2
           = authorization_at w).
Proof.
  intros Hw Hhs1 Hhs2 r1 w2 r2. subst r1 w2 r2.
  rewrite !dispatch_eq. cbn [fst snd].
  set (cfg1 := dispatched_config m1 url1 ps1 hs1 body1 w).
  set (w2 := (localStorage_setItem "token" t2 (add_sent cfg1 w)).2).
  exists cfg1, (dispatched_config m2 url2 ps2 hs2 body2 w2).
  assert (H1 : req_headers cfg1 !! "Authorization" = authorization_at w)
    by (apply dispatched_config_authorization; assumption).
  assert (H2 : req_headers (dispatched_config m2 url2 ps2 hs2 body2 w2) !! "Authorization"
               = authorization_at w2)
    by (apply dispatched_config_authorization; [exact Hw|assumption]).
  split; [reflexivity|]. split; [reflexivity|]. split; [exact H1|].
  split; [intros t1 Ht1; rewrite H1; unfold authorization_at; rewrite Ht1; reflexivity|].
  split; [intros Hc; rewrite H1; unfold authorization_at; rewrite Hc; reflexivity|].
  split; [reflexivity|].
  split; [subst w2; simpl; rewrite <- app_assoc; reflexivity|].
  split; [exact H2|].
  split.
  - intros Ht2. rewrite H2. unfold authorization_at, credential. subst w2. simpl.
    rewrite lookup_insert_eq, Ht2. reflexivity.
  - intros reply ep ps nc body. apply helpers_carry_authorization, Hw.
Qed.

Lemma authorization_bound_at_dispatch_witness :
  ∃ cfg1 cfg2,
    sent (Api.dispatch POST "/orders" None None None
            (localStorage_setItem "token" "xyz"
               (Api.dispatch GET "/products" None None None
                  logged_in_on_dashboard).2).2).2
    = [cfg1; cfg2]
    ∧ req_headers cfg1 !! "Authorization" = Some "Bearer abc"
    ∧ req_headers cfg2 !! "Authorization" = Some "Bearer xyz".
Proof.
  destruct (authorization_bound_at_dispatch GET POST "/products" "/orders"
              None None None None None None "xyz" logged_in_on_dashboard)
    as (cfg1 & cfg2 & _ & _ & _ & H1 & _ & _ & Hs & _ & H2 & _);
    [reflexivity|reflexivity|reflexivity|].
  exists cfg1, cfg2. split; [exact Hs|]. split.
  - apply (H1 "abc"). reflexivity.
  - apply H2. reflexivity.
Defined.

(** ** The session context *)

Lemma setAuthToken_some_eq (tok : string) (w : World) :
  Api.setAuthToken (Some tok) w =
    (Resolved tt,
     set_defaults_common
       (if str_truthy tok then <["Authorization" := Api.bearer tok]>
        else delete "Authorization") w).
Proof. unfold Api.setAuthToken. simpl. destruct (str_truthy tok); reflexivity. Qed.

Section LoginLaws.

Variable JSON_stringify : User → string.

Lemma login_success_eq (email password tok : string) (u : User)
    (a : AuthContext.AuthState) (w : World) :
  AuthContext.login JSON_stringify email password
    (Success (mkLoginResponse tok u)) (a, w) =
  (Resolved tt,
   (AuthContext.mkAuthState (Some u) (Some tok) false,
    persist_session tok (JSON_stringify u)
      (add_sent (dispatched_config POST "/auth/login" None None
                   (Some (credentials email password)) w) w))).
Proof.
  unfold AuthContext.login, try_finally, try_catch, bind, liftW.
  cbn [fst snd AuthContext.setIsLoading AuthContext.setUser AuthContext.setToken
       setC modify].
  rewrite postData_success_eq. cbn [fst snd resp_token resp_user].
  unfold localStorage_setItem, modify. cbn [fst snd].
  rewrite setAuthToken_some_eq. reflexivity.
Qed.


End LoginLaws.

Lemma logout_eq (a : AuthContext.AuthState) (w : World) :
  AuthContext.logout (a, w) =
  (Resolved tt,
   (AuthContext.mkAuthState None None (AuthContext.isLoading a), drop_session w)).
Proof. reflexivity. Qed.

Lemma persist_session_matches (tok ujson : string) (w : World) :
  header_matches_store (persist_session tok ujson w).
Proof.
  unfold header_matches_store, credential, persist_session. simpl.
  rewrite lookup_insert_ne by done. rewrite lookup_insert_eq.
  destruct (str_truthy tok); simpl.
  - apply lookup_insert_eq.
  - apply lookup_delete_eq.
Qed.

Lemma drop_session_matches (w : World) : header_matches_store (drop_session w).
Proof.
  unfold header_matches_store, credential, drop_session. simpl.
  rewrite (lookup_delete_ne _ "user" "token") by done.
  rewrite !lookup_delete_eq. reflexivity.
Qed.

(** A counterexample to C3 as stated: with token "abc" stored and the
    default header set to match, one 401 reply on the dashboard removes
    the stored token while the default header stays [Bearer abc]. *)
Lemma reactive_401_breaks_header_store_match :
  header_matches_store logged_in_on_dashboard
  ∧ ¬ header_matches_store
        (Api.fetchData (T:=unit) "/products" None true
           (Failure (error_with_status 401)) logged_in_on_dashboard).2.
Proof.
  split; [reflexivity|].
  vm_compute. discriminate.
Qed.

(** C3, amended.  In a browser tab, a successful [login] leaves the default Authorization
    header matching the stored credential, and so does [logout]: each sets
    or clears both in the same step.  The reactive 401 handler never
    touches the default headers; on a 401 away from the login screen it
    removes the stored token and user record only. *)
Theorem header_store_sync_on_login_and_logout
    (JSON_stringify : User → string) (email password tok : string) (u : User)
    (a : AuthContext.AuthState) (e : AxiosError) (w : World) :
  window_defined w = true →
  header_matches_store
    (AuthContext.login JSON_stringify email password
       (Success (mkLoginResponse tok u)) (a, w)).2.2
  ∧ header_matches_store (AuthContext.logout (a, w)).2.2
  ∧ defaults_common (Api.response_interceptor_rejected (T:=unit) e w).2
    = defaults_common w
  ∧ (on_401_off_login e w →
       session_cleared (Api.response_interceptor_rejected (T:=unit) e w).2).
Proof.
  intros Hw. rewrite login_success_eq, logout_eq.
  change (Api.response_interceptor_rejected (T:=unit) e w)
    with (Api.settle (T:=unit) (Failure e) w).
  rewrite settle_failure_eq. cbn [fst snd].
  split; [apply persist_session_matches|].
  split; [apply drop_session_matches|].
  split; [apply after_401_defaults|].
  intros H. unfold after_401. rewrite fires_401_true by assumption.
  apply handle_401_cleared.
Qed.

Lemma header_store_sync_on_login_and_logout_witness :
  header_matches_store
    (AuthContext.login sample_stringify "user@example.com" "secret"
       (Success (mkLoginResponse "abc" alice)) (fresh_provider, anonymous_on_login)).2.2
  ∧ session_cleared
      (Api.response_interceptor_rejected (T:=unit) (error_with_status 401)
         logged_in_on_dashboard).2.
Proof.
  destruct (header_store_sync_on_login_and_logout sample_stringify
              "user@example.com" "secret" "abc" alice fresh_provider
              (error_with_status 401) anonymous_on_login) as (H1 & _);
    [reflexivity|].
  destruct (header_store_sync_on_login_and_logout sample_stringify
              "user@example.com" "secret" "abc" alice fresh_provider
              (error_with_status 401) logged_in_on_dashboard) as (_ & _ & _ & H4);
    [reflexivity|].
  split; [exact H1|].
  apply H4. split; [reflexivity|discriminate].
Defined.

(** A counterexample to C5 as stated: [login] resolves with no value, the
    same for two different users returned by the API.  Besides, when the
    API returns the empty string as token, no default header is
    configured. *)
Lemma login_resolves_without_the_user :
  (AuthContext.login sample_stringify "user@example.com" "secret"
     (Success (mkLoginResponse "abc" alice)) (fresh_provider, anonymous_on_login)).1
  = Resolved tt
  ∧ (AuthContext.login sample_stringify "user@example.com" "secret"
       (Success (mkLoginResponse "abc" bob)) (fresh_provider, anonymous_on_login)).1
    = Resolved tt
  ∧ alice ≠ bob
  ∧ defaults_common
      (AuthContext.login sample_stringify "user@example.com" "secret"
         (Success (mkLoginResponse "" alice)) (fresh_provider, anonymous_on_login)).2.2
    !! "Authorization" = None.
Proof.
  split; [reflexivity|]. split; [reflexivity|]. split; [discriminate|reflexivity].
Qed.

(** C5, amended.  In a browser tab, when the API answers a [login] call
    with a token and a user, the token and the serialised user are written to local storage,
    the default header becomes [Bearer <token>] (it is removed if the
    token is the empty string), and the user and token are put into the
    provider's state; [login] itself resolves with no value. *)
Theorem login_success_persists_session
    (JSON_stringify : User → string) (email password tok : string) (u : User)
    (a : AuthContext.AuthState) (w : World) :
  window_defined w = true →
  let r := AuthContext.login JSON_stringify email password
             (Success (mkLoginResponse tok u)) (a, w) in
  r.1 = Resolved tt
  ∧ localStorage r.2.2 !! "token" = Some tok
  ∧ localStorage r.2.2 !! "user" = Some (JSON_stringify u)
  ∧ defaults_common r.2.2 !! "Authorization"
    = (if str_truthy tok then Some (Api.bearer tok) else None)
  ∧ AuthContext.user r.2.1 = Some u
  ∧ AuthContext.token r.2.1 = Some tok
  ∧ AuthContext.isLoading r.2.1 = false.
Proof.
  intros _ r. subst r. rewrite login_success_eq. cbn [fst snd].
  unfold persist_session. simpl.
  split; [reflexivity|].
  split; [rewrite lookup_insert_ne by done; apply lookup_insert_eq|].
  split; [apply lookup_insert_eq|].
  split; [|repeat split].
  destruct (str_truthy tok); [apply lookup_insert_eq|apply lookup_delete_eq].
Qed.

Lemma login_success_persists_session_witness :
  let r := AuthContext.login sample_stringify "user@example.com" "secret"
             (Success (mkLoginResponse "abc" alice))
             (fresh_provider, anonymous_on_login) in
  localStorage r.2.2 !! "token" = Some "abc"
  ∧ defaults_common r.2.2 !! "Authorization" = Some "Bearer abc"
  ∧ AuthContext.user r.2.1 = Some alice.
Proof.
  destruct (login_success_persists_session sample_stringify
              "user@example.com" "secret" "abc" alice fresh_provider
              anonymous_on_login) as (_ & Ht & _ & Hh & Hu & _); [reflexivity|].
  split; [exact Ht|]. split; [exact Hh|exact Hu].
Defined.

(** ** The login form *)

Section FormLaws.

Variable JSON_stringify : User → string.

Lemma handleSubmit_busy_eq reply unmounts (s : LoginPage.State) (w : World) :
  LoginPage.loading s = true →
  LoginPage.handleSubmit JSON_stringify reply unmounts (s, w) = (Resolved tt, (s, w)).
Proof.
  intros Hl. unfold LoginPage.handleSubmit, bind, getC, gets.
  cbn [fst snd]. rewrite Hl. reflexivity.
Qed.

Lemma handleSubmit_unfilled_eq reply unmounts (s : LoginPage.State) (w : World) :
  LoginPage.loading s = false →
  fields_filled s = false →
  LoginPage.handleSubmit JSON_stringify reply unmounts (s, w) =
    (Resolved tt, (s, add_toast (ToastError "Please fill in all fields") w)).
Proof.
  intros Hl Hf. unfold LoginPage.handleSubmit, bind, getC, gets.
  cbn [fst snd]. rewrite Hl.
  unfold fields_filled in Hf. rewrite <- negb_andb, Hf. reflexivity.
Qed.

Lemma handleSubmit_malformed_eq reply unmounts (s : LoginPage.State) (w : World) :
  LoginPage.loading s = false →
  fields_filled s = true →
  email_well_formed s = false →
  LoginPage.handleSubmit JSON_stringify reply unmounts (s, w) =
    (Resolved tt, (s, add_toast (ToastError "Please enter a valid email address") w)).
Proof.
  intros Hl Hf He. unfold LoginPage.handleSubmit, bind, getC, gets.
  cbn [fst snd]. rewrite Hl.
  unfold fields_filled in Hf. rewrite <- negb_andb, Hf.
  unfold email_well_formed in He. rewrite He. reflexivity.
Qed.

Lemma handleSubmit_failure_eq (e : AxiosError) (s : LoginPage.State) (w : World) :
  LoginPage.loading s = false →
  LoginPage.isMounted s = true →
  fields_filled s = true →
  email_well_formed s = true →
  LoginPage.handleSubmit JSON_stringify (Failure e) false (s, w) =
    (Resolved tt,
     (s,
      add_toast (failure_toast e w)
        (add_console ("Login error:", DetailError e)
           (add_console ("POST Error:", Api.error_detail e)
              (after_401 e
                 (add_sent
                    (dispatched_config POST "/auth/login" None None
                       (Some (LoginPage.body_of (LoginPage.formData s))) w) w)))))).
Proof.
  intros Hl Hm Hf He. unfold LoginPage.handleSubmit, bind, getC, gets.
  cbn [fst snd]. rewrite Hl.
  unfold fields_filled in Hf. rewrite <- negb_andb, Hf.
  unfold email_well_formed in He. rewrite He.
  unfold try_finally, try_catch, awaitC, bind, LoginPage.setLoading, setC, modify.
  cbn [fst snd negb]. rewrite postData_failure_eq.
  cbn [fst snd id LoginPage.isMounted]. rewrite Hm. cbn [negb].
  unfold liftW, console_error, toast_error, modify, gets, bind, failure_toast.
  cbn [fst snd].
  destruct s as [m f sp l c]. simpl in Hl, Hm. subst l m.
  destruct (bool_decide (response_status e = Some 401%N)); [reflexivity|].
  destruct (bool_decide (response_status e = Some 500%N)); [reflexivity|].
  cbn [fst snd]. unfold after_401.
  destruct (fires_401 e _); simpl; destruct (onLine w); reflexivity.
Qed.


End FormLaws.

(** A counterexample to C6 as stated: [login] of the session context does
    not validate; called with the malformed email "bad" and an empty
    password it dispatches the login request.  The login form does
    validate, but its handler returns normally instead of rejecting. *)
Lemma provider_login_dispatches_unvalidated :
  Js.test LoginPage.emailRegex "bad" = false
  ∧ (λ r, (req_method r, req_url r, req_data r)) <$>
      sent (AuthContext.login sample_stringify "bad" ""
              (Failure (error_with_status 400))
              (fresh_provider, anonymous_on_login)).2.2
    = [(POST, "/auth/login", Some [("email", "bad"); ("password", "")])]
  ∧ (LoginPage.handleSubmit sample_stringify
       (Failure (error_with_status 400)) false
       (login_form "bad" "", anonymous_on_login)).1 = Resolved tt.
Proof. split; [reflexivity|]. split; reflexivity. Qed.

(** C6, amended.  When the login form is submitted with an email or a
    password that is empty or only white space, or with an email that does
    not match the pattern, [handleSubmit] dispatches no request and
    changes neither the stored session nor the default headers: it
    returns normally after showing a validation error toast (unless a
    submission is already in progress, in which case it just returns). *)
Theorem invalid_form_dispatches_nothing
    (JSON_stringify : User → string) (reply : Reply LoginResponse) (unmounts : bool)
    (s : LoginPage.State) (w : World) :
  Js.trim (LoginPage.email (LoginPage.formData s)) = ""
  ∨ Js.trim (LoginPage.password (LoginPage.formData s)) = ""
  ∨ Js.test LoginPage.emailRegex (LoginPage.email (LoginPage.formData s)) = false →
  let r := LoginPage.handleSubmit JSON_stringify reply unmounts (s, w) in
  r.1 = Resolved tt
  ∧ sent r.2.2 = sent w
  ∧ localStorage r.2.2 = localStorage w
  ∧ defaults_common r.2.2 = defaults_common w
  ∧ navs r.2.2 = navs w
  ∧ (LoginPage.loading s = false →
       ∃ msg, toasts r.2.2 = (toasts w ++ [ToastError msg])%list).
Proof.
  intros Hbad r. subst r.
  destruct (LoginPage.loading s) eqn:Hl.
  { rewrite handleSubmit_busy_eq by exact Hl. cbn [fst snd].
    repeat split. discriminate. }
  destruct (fields_filled s) eqn:Hf.
  2:{ rewrite handleSubmit_unfilled_eq by assumption. cbn [fst snd].
      repeat split. intros _. eexists. reflexivity. }
  assert (He : email_well_formed s = false).
  { unfold fields_filled in Hf. apply andb_true_iff in Hf as [Hf1 Hf2].
    destruct Hbad as [Hb|[Hb|Hb]].
    - rewrite Hb in Hf1. discriminate.
    - rewrite Hb in Hf2. discriminate.
    - exact Hb. }
  rewrite handleSubmit_malformed_eq by assumption. cbn [fst snd].
  repeat split. intros _. eexists. reflexivity.
Qed.

Lemma invalid_form_dispatches_nothing_witness :
  sent (LoginPage.handleSubmit sample_stringify
          (Success (mkLoginResponse "abc" alice)) false
          (login_form "bad" "", anonymous_on_login)).2.2 = []
  ∧ ∃ msg,
      toasts (LoginPage.handleSubmit sample_stringify
                (Success (mkLoginResponse "abc" alice)) false
                (login_form "bad" "", anonymous_on_login)).2.2
      = [ToastError msg].
Proof.
  destruct (invalid_form_dispatches_nothing sample_stringify
              (Success (mkLoginResponse "abc" alice)) false
              (login_form "bad" "") anonymous_on_login)
    as (_ & Hs & _ & _ & _ & Ht).
  - right. left. reflexivity.
  - split; [exact Hs|]. apply Ht. reflexivity.
Defined.




(** ** Logging out *)

Lemma header_handleLogout_failure_eq {T} (e : AxiosError) (w : World) :
  Header.handleLogout (T:=T) (Failure e) w =
    (Resolved tt,
     wipe_and_reload
       (add_console ("Logout API error:", DetailError e)
          (add_console ("GET Error:", Api.error_detail e)
             (after_401 e (add_sent (logout_request w) w))))).
Proof.
  unfold Header.handleLogout, try_finally, try_catch, bind.
  rewrite fetchData_failure_eq. reflexivity.
Qed.

Lemma header_handleLogout_success_eq {T} (d : T) (w : World) :
  Header.handleLogout (Success d) w =
    (Resolved tt, wipe_and_reload (add_sent (logout_request w) w)).
Proof.
  unfold Header.handleLogout, try_finally, try_catch, bind.
  rewrite fetchData_success_eq. reflexivity.
Qed.

(** A counterexample to C8 as stated: [logout] of the session context
    calls no remote endpoint, and the header's logout, which does, leaves
    the default Authorization header in place. *)
Lemma no_logout_does_all_of_it :
  sent (AuthContext.logout (fresh_provider, logged_in_on_dashboard)).2.2 = []
  ∧ defaults_common
      (Header.handleLogout (T:=unit) (Failure network_error) logged_in_on_dashboard).2
    !! "Authorization" = Some "Bearer abc".
Proof. split; reflexivity. Qed.

(** C8, amended.  In a browser tab, [logout] of the session context makes
    no remote call:
    it removes the stored token and user record, removes the default
    Authorization header and navigates to the login screen.  The header's
    logout calls the remote logout endpoint once and then, whether that
    call succeeds or throws, empties local and session storage and
    navigates to the login screen, with no exception reaching its caller;
    it leaves the default headers as they were. *)
Theorem logout_local_guarantees {T} (reply : Reply T)
    (a : AuthContext.AuthState) (w : World) :
  window_defined w = true →
  let r := AuthContext.logout (a, w) in
  let h := Header.handleLogout reply w in
  (r.1 = Resolved tt
   ∧ sent r.2.2 = sent w
   ∧ session_cleared r.2.2
   ∧ defaults_common r.2.2 !! "Authorization" = None
   ∧ navs r.2.2 = (navs w ++ [RouterPush "/login"])%list
   ∧ AuthContext.user r.2.1 = None
   ∧ AuthContext.token r.2.1 = None)
  ∧ (h.1 = Resolved tt
     ∧ sent h.2 = (sent w ++ [logout_request w])%list
     ∧ req_method (logout_request w) = GET
     ∧ req_url (logout_request w) = "/auth/logout"
     ∧ localStorage h.2 = ∅
     ∧ sessionStorage h.2 = ∅
     ∧ last (navs h.2) = Some (LocationReplace "/login")
     ∧ defaults_common h.2 = defaults_common w).
Proof.
  intros _ r h. subst r h. split.
  - rewrite logout_eq. cbn [fst snd]. unfold drop_session, session_cleared. simpl.
    split; [reflexivity|]. split; [reflexivity|].
    split; [split|].
    + rewrite lookup_delete_ne by done. apply lookup_delete_eq.
    + apply lookup_delete_eq.
    + split; [apply lookup_delete_eq|]. repeat split.
  - assert (Hm : req_method (logout_request w) = GET
                 ∧ req_url (logout_request w) = "/auth/logout").
    { unfold logout_request, dispatched_config.
      destruct (window_defined w && truthy _); split; reflexivity. }
    destruct Hm as [Hm Hu].
    destruct reply as [d|e].
    + rewrite header_handleLogout_success_eq. cbn [fst snd]. simpl.
      rewrite last_snoc. repeat split; assumption.
    + rewrite header_handleLogout_failure_eq. cbn [fst snd]. simpl.
      rewrite last_snoc, after_401_sent, after_401_defaults.
      repeat split; assumption.
Qed.

Lemma logout_local_guarantees_witness :
  session_cleared (AuthContext.logout (fresh_provider, logged_in_on_dashboard)).2.2
  ∧ (Header.handleLogout (T:=unit) (Failure network_error) logged_in_on_dashboard).1
    = Resolved tt
  ∧ localStorage
      (Header.handleLogout (T:=unit) (Failure network_error) logged_in_on_dashboard).2
    = ∅.
Proof.
  destruct (logout_local_guarantees (T:=unit) (Failure network_error)
              fresh_provider logged_in_on_dashboard)
    as ((_ & _ & Hc & _) & (Hr & _ & _ & _ & Hl & _)); [reflexivity|].
  split; [exact Hc|]. split; [exact Hr|exact Hl].
Defined.

(** ** Cache control *)

Lemma merged_no_cache (w : World) :
  Api.merged_headers (no_cache true) w !! "Cache-Control" = Some "no-cache".
Proof.
  unfold Api.merged_headers, no_cache. simpl.
  rewrite <- (assoc_L (∪)).
  apply lookup_union_Some_l, lookup_singleton_eq.
Qed.

Lemma merged_none_cache (w : World) :
  Api.merged_headers None w !! "Cache-Control" = defaults_common w !! "Cache-Control".
Proof.
  unfold Api.merged_headers. simpl.
  rewrite lookup_union_r; [reflexivity|].
  apply lookup_union_None. split; [apply lookup_empty|].
  unfold Api.instance_headers. apply lookup_singleton_ne. discriminate.
Qed.

(** A counterexample to C9 as stated: a [postData] call with default
    arguments is dispatched without any Cache-Control header. *)
Lemma postData_attaches_no_cache_directive :
  last_header "Cache-Control"
    (Api.postData "/products" [("name", "ring")] (Success tt) anonymous_on_login).2
  = None.
Proof. reflexivity. Qed.

(** C9, amended.  Every request issued through [fetchData] with its
    default [noCache = true] carries [Cache-Control: no-cache], whatever
    the reply.  [postData], [putData] and [deleteData] attach no cache
    directive: their requests carry a Cache-Control header only if the
    client's default headers hold one. *)
Theorem fetchData_disables_caching_by_default {T} (endpoint : string)
    (params : option Payload) (body : Payload) (reply : Reply T) (w : World) :
  last_header "Cache-Control" (Api.fetchData endpoint params true reply w).2
  = Some "no-cache"
  ∧ last_header "Cache-Control" (Api.postData endpoint body reply w).2
    = defaults_common w !! "Cache-Control"
  ∧ last_header "Cache-Control" (Api.putData endpoint body reply w).2
    = defaults_common w !! "Cache-Control"
  ∧ last_header "Cache-Control" (Api.deleteData endpoint reply w).2
    = defaults_common w !! "Cache-Control".
Proof.
  destruct reply as [d|e].
  - rewrite fetchData_success_eq, postData_success_eq, putData_success_eq,
      deleteData_success_eq. cbn [fst snd].
    rewrite !last_header_add_sent, !dispatched_config_other_header by discriminate.
    rewrite merged_no_cache, merged_none_cache. repeat split.
  - rewrite fetchData_failure_eq, postData_failure_eq, putData_failure_eq,
      deleteData_failure_eq. cbn [fst snd].
    rewrite !last_header_after_failure, !dispatched_config_other_header by discriminate.
    rewrite merged_no_cache, merged_none_cache. repeat split.
Qed.

(** ** Profile placeholders *)

Lemma header_fetchUserProfile_failure_eq (e : AxiosError) (now1 now2 : string)
    (s : Header.State) (w : World) :
  response_status e ≠ Some 401%N →
  Header.fetchUserProfile (Failure e) now1 now2 (s, w) =
    (Resolved tt,
     (Header.mkState (Some (Header.default_user now1 now2)) false,
      add_console ("Failed to fetch user profile:", DetailError e)
        (add_console ("GET Error:", Api.error_detail e)
           (add_sent (profile_request w) w)))).
Proof.
  intros Hne.
  unfold Header.fetchUserProfile, try_finally, try_catch, bind, liftW,
    Header.setLoading, Header.setUserData, setC, modify.
  cbn [fst snd]. rewrite fetchData_failure_eq. cbn [fst snd].
  unfold console_error, modify, ret. cbn [fst snd].
  rewrite (bool_decide_eq_false_2 _ Hne). cbn [fst snd].
  unfold after_401, fires_401. rewrite (bool_decide_eq_false_2 _ Hne).
  reflexivity.
Qed.

Lemma sidebar_fetchUserProfile_failure_eq (e : AxiosError)
    (s : Sidebar.State) (w : World) :
  Sidebar.fetchUserProfile (Failure e) (s, w) =
    (Resolved tt,
     (Sidebar.mkState (Some Sidebar.dummy_user) false (Sidebar.showProfileModal s),
      add_console ("Failed to fetch profile:", DetailError e)
        (add_console ("Profile fetch error:", DetailError e)
           (add_console ("GET Error:", Api.error_detail e)
              (after_401 e (add_sent (profile_request w) w)))))).
Proof.
  unfold Sidebar.fetchUserProfile, Sidebar.getProfile, try_finally, try_catch,
    bind, liftW, Sidebar.setLoading, Sidebar.setUser, setC, modify.
  cbn [fst snd]. rewrite fetchData_failure_eq. reflexivity.
Qed.

(** C10.  When the profile call of the header or of the sidebar fails with
    an error whose status is not 401, the component does not rethrow and
    shows no toast: it only logs to the console and puts a hardcoded
    placeholder into its state, "Admin User" in the header and
    "Dummy User" in the sidebar; the stored session is not touched. *)
Theorem profile_failure_substitutes_placeholder (e : AxiosError)
    (now1 now2 : string) (hs : Header.State) (ss : Sidebar.State) (w : World) :
  response_status e ≠ Some 401%N →
  let h := Header.fetchUserProfile (Failure e) now1 now2 (hs, w) in
  let s := Sidebar.fetchUserProfile (Failure e) (ss, w) in
  req_url (profile_request w) = "/auth/profile"
  ∧ (h.1 = Resolved tt
   ∧ sent h.2.2 = (sent w ++ [profile_request w])%list
   ∧ Header.userData h.2.1 = Some (Header.default_user now1 now2)
   ∧ Header.ud_name (Header.default_user now1 now2) = "Admin User"
   ∧ toasts h.2.2 = toasts w
   ∧ navs h.2.2 = navs w
   ∧ localStorage h.2.2 = localStorage w)
  ∧ (s.1 = Resolved tt
     ∧ sent s.2.2 = (sent w ++ [profile_request w])%list
     ∧ Sidebar.user s.2.1 = Some Sidebar.dummy_user
     ∧ Sidebar.up_name Sidebar.dummy_user = "Dummy User"
     ∧ toasts s.2.2 = toasts w
     ∧ navs s.2.2 = navs w
     ∧ localStorage s.2.2 = localStorage w).
Proof.
  intros Hne h s. subst h s.
  rewrite header_fetchUserProfile_failure_eq by exact Hne.
  rewrite sidebar_fetchUserProfile_failure_eq. cbn [fst snd]. simpl.
  unfold after_401, fires_401. rewrite (bool_decide_eq_false_2 _ Hne). simpl.
  split; [|repeat split].
  unfold profile_request, dispatched_config.
  destruct (window_defined w && truthy _); reflexivity.
Qed.

Lemma profile_failure_substitutes_placeholder_witness :
  Header.userData
    (Header.fetchUserProfile (Failure (error_with_status 500))
       "2026-01-01T00:00:00.000Z" "2026-01-01T00:00:00.001Z"
       (fresh_header, logged_in_on_dashboard)).2.1
  = Some (Header.default_user "2026-01-01T00:00:00.000Z" "2026-01-01T00:00:00.001Z")
  ∧ Sidebar.user
      (Sidebar.fetchUserProfile (Failure (error_with_status 500))
         (fresh_sidebar, logged_in_on_dashboard)).2.1
    = Some Sidebar.dummy_user.
Proof.
  destruct (profile_failure_substitutes_placeholder (error_with_status 500)
              "2026-01-01T00:00:00.000Z" "2026-01-01T00:00:00.001Z"
              fresh_header fresh_sidebar logged_in_on_dashboard)
    as (_ & (_ & _ & Hh & _) & (_ & _ & Hs & _)); [discriminate|].
  split; [exact Hh|exact Hs].
Defined.

(** ** The route guard *)

Lemma isAuthenticated_credential (w : World) :
  ProtectedRoute.isAuthenticated w
  = window_defined w && bool_decide (is_Some (credential w)).
Proof.
  unfold ProtectedRoute.isAuthenticated, credential.
  destruct (window_defined w); [|reflexivity]. simpl.
  destruct (localStorage w !! "token") as [t|]; [|reflexivity].
  simpl. destruct (str_truthy t); reflexivity.
Qed.

Lemma mount_eq {V} (children : V) (w : World) :
  ProtectedRoute.mount children w =
    if ProtectedRoute.isAuthenticated w then (Resolved (Some children), w)
    else (Resolved None, add_nav (RouterReplace "/login") w).
Proof.
  unfold ProtectedRoute.mount, ProtectedRoute.render, ProtectedRoute.effect,
    bind, gets, ret, router_replace, modify.
  destruct (ProtectedRoute.isAuthenticated w); reflexivity.
Qed.

(** C4.  Mounting a protected screen reads the stored token and sends
    nothing over the network.  With no credential stored (no token, or an
    empty one) the guard renders nothing and issues exactly one redirect
    to the login screen.  In a browser tab with a credential stored it
    renders its children, with no redirect and no network call. *)
Theorem route_guard_mount {V} (children : V) (w : World) :
  let r := ProtectedRoute.mount children w in
  sent r.2 = sent w
  ∧ localStorage r.2 = localStorage w
  ∧ (credential w = None →
       r.1 = Resolved None
       ∧ navs r.2 = (navs w ++ [RouterReplace "/login"])%list)
  ∧ (window_defined w = true → is_Some (credential w) →
       r.1 = Resolved (Some children) ∧ navs r.2 = navs w).
Proof.
  intros r. subst r. rewrite mount_eq, isAuthenticated_credential.
  split; [destruct (_ && _); reflexivity|].
  split; [destruct (_ && _); reflexivity|].
  split.
  - intros Hc. rewrite Hc.
    rewrite (bool_decide_eq_false_2 (is_Some None)) by apply is_Some_None.
    rewrite andb_false_r. split; reflexivity.
  - intros Hw Hc. rewrite Hw, (bool_decide_eq_true_2 _ Hc). split; reflexivity.
Qed.

Lemma route_guard_mount_witness :
  (ProtectedRoute.mount "children" anonymous_on_login).1 = Resolved None
  ∧ navs (ProtectedRoute.mount "children" anonymous_on_login).2
    = [RouterReplace "/login"]
  ∧ (ProtectedRoute.mount "children" logged_in_on_dashboard).1
    = Resolved (Some "children")
  ∧ navs (ProtectedRoute.mount "children" logged_in_on_dashboard).2 = [].
Proof.
  destruct (route_guard_mount "children" anonymous_on_login) as (_ & _ & H0 & _).
  destruct (route_guard_mount "children" logged_in_on_dashboard) as (_ & _ & _ & H1).
  destruct H0 as [Ha Hb]; [reflexivity|].
  destruct H1 as [Hc Hd]; [reflexivity|eexists; reflexivity|].
  repeat split; assumption.
Defined.

(** * Further properties *)

(** ** The request client *)

Lemma dispatched_config_shape m url ps hs body (w : World) :
  request_shape m url ps body (dispatched_config m url ps hs body w).
Proof.
  unfold request_shape, dispatched_config.
  destruct (window_defined w && truthy _); repeat split; reflexivity.
Qed.

Lemma only_sent_differs_add_sent (cfg : Request) (w : World) :
  only_sent_differs w (add_sent cfg w).
Proof. unfold only_sent_differs. repeat split; reflexivity. Qed.

(** Every call through a helper hands exactly one request to the
    transport, whatever the reply: a GET, POST, PUT or DELETE to the given
    endpoint under the base URL, with the query parameters of [fetchData]
    and the body of [postData] and [putData] passed on as given. *)
Theorem helpers_dispatch_one_request {T} (reply : Reply T) (endpoint : string)
    (params : option Payload) (noCache : bool) (body : Payload) (w : World) :
  (∃ r, sent (Api.fetchData endpoint params noCache reply w).2 = (sent w ++ [r])%list
        ∧ request_shape GET endpoint params None r)
  ∧ (∃ r, sent (Api.postData endpoint body reply w).2 = (sent w ++ [r])%list
          ∧ request_shape POST endpoint None (Some body) r)
  ∧ (∃ r, sent (Api.putData endpoint body reply w).2 = (sent w ++ [r])%list
          ∧ request_shape PUT endpoint None (Some body) r)
  ∧ (∃ r, sent (Api.deleteData endpoint reply w).2 = (sent w ++ [r])%list
          ∧ request_shape DELETE endpoint None None r).
Proof.
  destruct reply as [d|e].
  - rewrite fetchData_success_eq, postData_success_eq, putData_success_eq,
      deleteData_success_eq. cbn [fst snd].
    split; [|split; [|split]]; eexists; (split; [reflexivity|]);
      apply dispatched_config_shape.
  - rewrite fetchData_failure_eq, postData_failure_eq, putData_failure_eq,
      deleteData_failure_eq. cbn [fst snd].
    split; [|split; [|split]]; eexists;
      (split; [simpl; rewrite after_401_sent; reflexivity|]);
      apply dispatched_config_shape.
Qed.

(** A call that succeeds returns the data of the reply and leaves the
    world as it was, the log of requests apart: no storage, header,
    navigation, console or toast effect. *)
Theorem helpers_success_transparent {T} (d : T) (endpoint : string)
    (params : option Payload) (noCache : bool) (body : Payload) (w : World) :
  ((Api.fetchData endpoint params noCache (Success d) w).1 = Resolved d
   ∧ only_sent_differs w (Api.fetchData endpoint params noCache (Success d) w).2)
  ∧ ((Api.postData endpoint body (Success d) w).1 = Resolved d
     ∧ only_sent_differs w (Api.postData endpoint body (Success d) w).2)
  ∧ ((Api.putData endpoint body (Success d) w).1 = Resolved d
     ∧ only_sent_differs w (Api.putData endpoint body (Success d) w).2)
  ∧ ((Api.deleteData endpoint (Success d) w).1 = Resolved d
     ∧ only_sent_differs w (Api.deleteData endpoint (Success d) w).2).
Proof.
  rewrite fetchData_success_eq, postData_success_eq, putData_success_eq,
    deleteData_success_eq. cbn [fst snd].
  split; [|split; [|split]]; (split; [reflexivity|apply only_sent_differs_add_sent]).
Qed.

(** Where [window] is not defined the interceptors leave storage and
    location alone: the request carries the Authorization entry of the
    default headers, stored token or not, and even a 401 reply changes
    neither local storage nor the navigation log. *)
Theorem interceptors_inert_without_window {T} (reply : Reply T) (endpoint : string)
    (params : option Payload) (noCache : bool) (w : World) :
  window_defined w = false →
  let r := Api.fetchData endpoint params noCache reply w in
  last_header "Authorization" r.2 = defaults_common w !! "Authorization"
  ∧ localStorage r.2 = localStorage w
  ∧ navs r.2 = navs w.
Proof.
  intros Hw r. subst r.
  assert (Hh : req_headers (dispatched_config GET endpoint params (no_cache noCache) None w)
               !! "Authorization" = defaults_common w !! "Authorization").
  { unfold dispatched_config. rewrite Hw. simpl.
    apply merged_headers_authorization, no_cache_authorization. }
  destruct reply as [d|e].
  - rewrite fetchData_success_eq. cbn [fst snd].
    rewrite last_header_add_sent. repeat split. exact Hh.
  - rewrite fetchData_failure_eq. cbn [fst snd].
    rewrite last_header_after_failure. simpl.
    unfold after_401, fires_401. simpl. rewrite Hw, andb_false_r. simpl.
    repeat split. exact Hh.
Qed.

Lemma interceptors_inert_without_window_witness :
  let w := mkWorld false {[ "token" := "abc" ]} ∅ "/dashboard" true ∅ [] [] [] [] [] in
  let r := Api.fetchData (T:=unit) "/products" None true
             (Failure (error_with_status 401)) w in
  last_header "Authorization" r.2 = None
  ∧ localStorage r.2 !! "token" = Some "abc".
Proof.
  intros w r.
  destruct (interceptors_inert_without_window (T:=unit)
              (Failure (error_with_status 401)) "/products" None true w)
    as (Hh & Hl & _); [reflexivity|].
  split; [exact Hh|]. subst r. rewrite Hl. reflexivity.
Defined.

Lemma setAuthToken_eq (t : option string) (w : World) :
  Api.setAuthToken t w =
    (Resolved tt,
     set_defaults_common
       (if truthy t then <["Authorization" := Api.bearer (default "" t)]>
        else delete "Authorization") w).
Proof. unfold Api.setAuthToken. destruct (truthy t); reflexivity. Qed.

(** [setAuthToken] is last-write-wins on the one header it owns: after any
    sequence of calls the default Authorization header is [Bearer t] for
    the last token [t] passed if that is a non-empty string, absent if the
    last call passed [null] or the empty string, and as before if there
    was no call; the other default headers and local storage are never
    touched. *)
Theorem setAuthToken_last_write_wins (ts : list (option string)) (w : World) :
  let r := run_all (Api.setAuthToken <$> ts) w in
  r.1 = Resolved tt
  ∧ defaults_common r.2 !! "Authorization"
    = match last ts with
      | Some t => if truthy t then Some (Api.bearer (default "" t)) else None
      | None => defaults_common w !! "Authorization"
      end
  ∧ (∀ k, k ≠ "Authorization" → defaults_common r.2 !! k = defaults_common w !! k)
  ∧ localStorage r.2 = localStorage w
  ∧ sent r.2 = sent w.
Proof.
  revert w. induction ts as [|t ts IH]; intros w r; subst r.
  - simpl. repeat split.
  - cbn [fmap list_fmap run_all]. unfold bind. rewrite setAuthToken_eq.
    set (w1 := set_defaults_common _ w).
    destruct (IH w1) as (H1 & H2 & H3 & H4 & H5).
    split; [exact H1|]. split; [|split; [|split]].
    + rewrite H2. destruct ts as [|t' ts'].
      * simpl. subst w1. simpl.
        destruct (truthy t); [apply lookup_insert_eq|apply lookup_delete_eq].
      * change (last (t :: t' :: ts')) with (last (t' :: ts')).
        destruct (last (t' :: ts')) eqn:E; [reflexivity|].
        apply last_None in E. discriminate.
    + intros k Hk. rewrite H3 by exact Hk. subst w1. simpl.
      destruct (truthy t);
        [apply lookup_insert_ne|apply lookup_delete_ne]; congruence.
    + rewrite H4. reflexivity.
    + rewrite H5. reflexivity.
Qed.

Lemma setAuthToken_last_write_wins_witness :
  let r := run_all (Api.setAuthToken <$> [Some "abc"; None; Some "xyz"])
             (set_defaults_common (<["Accept" := "application/json"]>)
                anonymous_on_login) in
  defaults_common r.2 !! "Authorization" = Some "Bearer xyz"
  ∧ defaults_common r.2 !! "Accept" = Some "application/json".
Proof.
  intros r.
  destruct (setAuthToken_last_write_wins [Some "abc"; None; Some "xyz"]
              (set_defaults_common (<["Accept" := "application/json"]>)
                 anonymous_on_login)) as (_ & Ha & Hk & _).
  split; [exact Ha|]. subst r. rewrite Hk; [reflexivity|discriminate].
Defined.

(** ** The sidebar's logout *)

Lemma sidebar_handleLogout_success_eq {T} (d : T) (s : Sidebar.State) (w : World) :
  Sidebar.handleLogout (Success d) (s, w) =
    (Resolved tt,
     (Sidebar.mkState None (Sidebar.loading s) false,
      sidebar_drop_session (add_sent (logout_request w) w))).
Proof.
  unfold Sidebar.handleLogout, try_catch, bind, liftW. cbn [fst snd].
  rewrite fetchData_success_eq. reflexivity.
Qed.

Lemma sidebar_handleLogout_failure_eq {T} (e : AxiosError) (s : Sidebar.State) (w : World) :
  Sidebar.handleLogout (T:=T) (Failure e) (s, w) =
    (Resolved tt,
     (s,
      add_nav (RouterPush "/login")
        (set_localStorage (λ _, ∅)
           (add_console ("Logout error:", DetailError e)
              (add_console ("GET Error:", Api.error_detail e)
                 (after_401 e (add_sent (logout_request w) w))))))).
Proof.
  unfold Sidebar.handleLogout, try_catch, bind, liftW. cbn [fst snd].
  rewrite fetchData_failure_eq. destruct s; reflexivity.
Qed.

(** The sidebar's logout never throws and always ends with a push to the
    login screen.  When the remote call succeeds it removes exactly the
    keys token, authToken and user from local storage, keeps every other
    key, removes the default Authorization header and resets the user of
    the component.  When the remote call fails it empties local storage
    altogether and leaves the default headers as they were. *)
Theorem sidebar_logout_paths {T} (d : T) (e : AxiosError)
    (s : Sidebar.State) (w : World) :
  let ok := Sidebar.handleLogout (Success d) (s, w) in
  let ko := Sidebar.handleLogout (T:=T) (Failure e) (s, w) in
  (ok.1 = Resolved tt
   ∧ localStorage ok.2.2 !! "token" = None
   ∧ localStorage ok.2.2 !! "authToken" = None
   ∧ localStorage ok.2.2 !! "user" = None
   ∧ (∀ k, k ≠ "token" → k ≠ "authToken" → k ≠ "user" →
        localStorage ok.2.2 !! k = localStorage w !! k)
   ∧ defaults_common ok.2.2 !! "Authorization" = None
   ∧ navs ok.2.2 = (navs w ++ [RouterPush "/login"])%list
   ∧ Sidebar.user ok.2.1 = None
   ∧ Sidebar.showProfileModal ok.2.1 = false)
  ∧ (ko.1 = Resolved tt
     ∧ localStorage ko.2.2 = ∅
     ∧ defaults_common ko.2.2 = defaults_common w
     ∧ last (navs ko.2.2) = Some (RouterPush "/login")
     ∧ ko.2.1 = s).
Proof.
  intros ok ko. subst ok ko.
  rewrite sidebar_handleLogout_success_eq, sidebar_handleLogout_failure_eq.
  cbn [fst snd]. unfold sidebar_drop_session. simpl. split.
  - split; [reflexivity|].
    split; [rewrite !lookup_delete_ne by done; apply lookup_delete_eq|].
    split; [rewrite lookup_delete_ne by done; apply lookup_delete_eq|].
    split; [apply lookup_delete_eq|].
    split; [intros k H1 H2 H3; rewrite !lookup_delete_ne by congruence; reflexivity|].
    split; [apply lookup_delete_eq|]. repeat split.
  - rewrite last_snoc, after_401_defaults. repeat split.
Qed.

Lemma sidebar_logout_paths_witness :
  let w := set_localStorage (<["theme" := "dark"]>) logged_in_on_dashboard in
  localStorage (Sidebar.handleLogout (Success tt) (fresh_sidebar, w)).2.2 !! "theme"
  = Some "dark"
  ∧ localStorage
      (Sidebar.handleLogout (T:=unit) (Failure network_error) (fresh_sidebar, w)).2.2
    !! "theme" = None.
Proof.
  intros w.
  destruct (sidebar_logout_paths tt network_error fresh_sidebar w)
    as ((_ & _ & _ & _ & Hk & _) & (_ & He & _)).
  split.
  - rewrite Hk; [reflexivity|discriminate ..].
  - rewrite He. apply lookup_empty.
Defined.

(** ** The next request after a login or a logout *)

Lemma authorization_after_drop (w : World) :
  authorization_at (drop_session w) = None.
Proof.
  unfold authorization_at, credential, drop_session. simpl.
  rewrite (lookup_delete_ne _ "user" "token") by done.
  rewrite !lookup_delete_eq. reflexivity.
Qed.

Lemma authorization_after_sidebar_drop (w : World) :
  authorization_at (sidebar_drop_session w) = None.
Proof.
  unfold authorization_at, credential, sidebar_drop_session. simpl.
  rewrite (lookup_delete_ne _ "user" "token") by done.
  rewrite (lookup_delete_ne _ "authToken" "token") by done.
  rewrite !lookup_delete_eq. reflexivity.
Qed.

Lemma authorization_after_persist (tok ujson : string) (w : World) :
  str_truthy tok = true →
  authorization_at (persist_session tok ujson w) = Some (Api.bearer tok).
Proof.
  intros Ht. unfold authorization_at, credential, persist_session. simpl.
  rewrite lookup_insert_ne by done. rewrite lookup_insert_eq, Ht. reflexivity.
Qed.

(** In a browser tab, the request that follows a logout through the
    session context, or through the sidebar when its remote call
    succeeded, carries no Authorization header at all, whatever token and
    default header were in place before. *)
Theorem request_after_logout_is_anonymous {T} (reply : Reply T) (d : unit)
    (endpoint : string) (params : option Payload) (noCache : bool)
    (a : AuthContext.AuthState) (s : Sidebar.State) (w : World) :
  window_defined w = true →
  last_header "Authorization"
    (Api.fetchData endpoint params noCache reply (AuthContext.logout (a, w)).2.2).2
  = None
  ∧ last_header "Authorization"
      (Api.fetchData endpoint params noCache reply
         (Sidebar.handleLogout (Success d) (s, w)).2.2).2
    = None.
Proof.
  intros Hw. rewrite logout_eq, sidebar_handleLogout_success_eq. cbn [fst snd].
  split.
  - destruct (helpers_carry_authorization reply endpoint params noCache []
                (drop_session w)) as (H & _); [exact Hw|].
    rewrite H. apply authorization_after_drop.
  - destruct (helpers_carry_authorization reply endpoint params noCache []
                (sidebar_drop_session (add_sent (logout_request w) w)))
      as (H & _); [exact Hw|].
    rewrite H. apply authorization_after_sidebar_drop.
Qed.

Lemma request_after_logout_is_anonymous_witness :
  last_header "Authorization"
    (Api.fetchData (T:=unit) "/products" None true (Success tt)
       (AuthContext.logout (fresh_provider, logged_in_on_dashboard)).2.2).2
  = None.
Proof.
  destruct (request_after_logout_is_anonymous (T:=unit) (Success tt) tt
              "/products" None true fresh_provider fresh_sidebar
              logged_in_on_dashboard) as (H & _); [reflexivity|].
  exact H.
Defined.

(** In a browser tab, the logout button of the profile page and the
    sidebar's logout whose remote call failed leave the default headers
    alone: the request that follows carries the default Authorization
    header configured before the logout, if there was one, although no
    token is stored any more. *)
Theorem request_after_storage_only_logout {T} (reply : Reply T) (e : AxiosError)
    (endpoint : string) (params : option Payload) (noCache : bool)
    (s : Sidebar.State) (w : World) :
  window_defined w = true →
  let w1 := (Profile.logout_click w).2 in
  let w2 := (Sidebar.handleLogout (T:=unit) (Failure e) (s, w)).2.2 in
  credential w1 = None
  ∧ last_header "Authorization" (Api.fetchData endpoint params noCache reply w1).2
    = defaults_common w !! "Authorization"
  ∧ credential w2 = None
  ∧ last_header "Authorization" (Api.fetchData endpoint params noCache reply w2).2
    = defaults_common w !! "Authorization".
Proof.
  intros Hw w1 w2.
  assert (Hw1 : window_defined w1 = true) by exact Hw.
  assert (Hw2 : window_defined w2 = true).
  { unfold w2. rewrite sidebar_handleLogout_failure_eq. cbn [fst snd]. simpl.
    unfold after_401. destruct (fires_401 e _); exact Hw. }
  assert (Hc1 : credential w1 = None) by reflexivity.
  assert (Hc2 : credential w2 = None).
  { unfold w2. rewrite sidebar_handleLogout_failure_eq. reflexivity. }
  assert (Hd2 : defaults_common w2 = defaults_common w).
  { unfold w2. rewrite sidebar_handleLogout_failure_eq. cbn [fst snd]. simpl.
    rewrite after_401_defaults. reflexivity. }
  destruct (helpers_carry_authorization reply endpoint params noCache [] w1 Hw1)
    as (H1 & _).
  destruct (helpers_carry_authorization reply endpoint params noCache [] w2 Hw2)
    as (H2 & _).
  split; [exact Hc1|]. split.
  - rewrite H1. unfold authorization_at. rewrite Hc1. reflexivity.
  - split; [exact Hc2|].
    rewrite H2. unfold authorization_at. rewrite Hc2, Hd2. reflexivity.
Qed.

Lemma request_after_storage_only_logout_witness :
  last_header "Authorization"
    (Api.fetchData (T:=unit) "/products" None true (Success tt)
       (Profile.logout_click logged_in_on_dashboard).2).2
  = Some "Bearer abc".
Proof.
  destruct (request_after_storage_only_logout (T:=unit) (Success tt) network_error
              "/products" None true fresh_sidebar logged_in_on_dashboard)
    as (_ & H & _); [reflexivity|].
  exact H.
Defined.

(** ** The login form: success, and leaving in the middle *)

Section FormSuccess.

Variable JSON_stringify : User → string.

Lemma handleSubmit_success_eq (tok : string) (u : User)
    (s : LoginPage.State) (w : World) :
  LoginPage.loading s = false →
  LoginPage.isMounted s = true →
  fields_filled s = true →
  email_well_formed s = true →
  LoginPage.handleSubmit JSON_stringify (Success (mkLoginResponse tok u)) false (s, w) =
    (Resolved tt,
     (s,
      add_timer (mkTimer 1000 "/dashboard")
        (add_toast (ToastSuccess "Login successful! Redirecting...")
           (persist_session tok (JSON_stringify u)
              (add_sent (login_request s w) w))))).
Proof.
  intros Hl Hm Hf He. unfold LoginPage.handleSubmit, bind, getC, gets.
  cbn [fst snd]. rewrite Hl.
  unfold fields_filled in Hf. rewrite <- negb_andb, Hf.
  unfold email_well_formed in He. rewrite He.
  unfold try_finally, try_catch, awaitC, bind, LoginPage.setLoading, setC, modify.
  cbn [fst snd negb]. rewrite postData_success_eq.
  cbn [fst snd id LoginPage.isMounted]. rewrite Hm. cbn [negb].
  unfold liftW, localStorage_setItem, toast_success, setTimeout_push_if_mounted,
    modify, bind.
  cbn [fst snd resp_token resp_user]. rewrite setAuthToken_some_eq.
  destruct s as [m f sp l c]. simpl in Hl, Hm. subst l m. reflexivity.
Qed.

Lemma handleSubmit_left_eq (reply : Reply LoginResponse)
    (s : LoginPage.State) (w : World) :
  LoginPage.loading s = false →
  fields_filled s = true →
  email_well_formed s = true →
  LoginPage.handleSubmit JSON_stringify reply true (s, w) =
    (Resolved tt,
     (left_mid_submission s,
      match reply with
      | Success _ => add_sent (login_request s w) w
      | Failure e =>
          add_console ("POST Error:", Api.error_detail e)
            (after_401 e (add_sent (login_request s w) w))
      end)).
Proof.
  intros Hl Hf He. unfold LoginPage.handleSubmit, bind, getC, gets.
  cbn [fst snd]. rewrite Hl.
  unfold fields_filled in Hf. rewrite <- negb_andb, Hf.
  unfold email_well_formed in He. rewrite He.
  unfold try_finally, try_catch, awaitC, bind, LoginPage.setLoading, setC, modify.
  cbn [fst snd negb].
  destruct reply as [d|e].
  - rewrite postData_success_eq. reflexivity.
  - rewrite postData_failure_eq. reflexivity.
Qed.

(** A valid submission of the login form that the API answers with a
    token and a user, on a page that stays mounted: the token and the
    serialised user are stored, the default header follows the token, a
    success toast is shown, and the move to the dashboard is only
    scheduled, one second later, not made at once; the form is no longer
    busy. *)
Theorem form_login_success (tok : string) (u : User)
    (s : LoginPage.State) (w : World) :
  LoginPage.loading s = false →
  LoginPage.isMounted s = true →
  fields_filled s = true →
  email_well_formed s = true →
  let r := LoginPage.handleSubmit JSON_stringify
             (Success (mkLoginResponse tok u)) false (s, w) in
  r.1 = Resolved tt
  ∧ localStorage r.2.2 !! "token" = Some tok
  ∧ localStorage r.2.2 !! "user" = Some (JSON_stringify u)
  ∧ header_matches_store r.2.2
  ∧ toasts r.2.2 = (toasts w ++ [ToastSuccess "Login successful! Redirecting..."])%list
  ∧ timers r.2.2 = (timers w ++ [mkTimer 1000 "/dashboard"])%list
  ∧ navs r.2.2 = navs w
  ∧ sent r.2.2 = (sent w ++ [login_request s w])%list
  ∧ LoginPage.loading r.2.1 = false.
Proof.
  intros Hl Hm Hf He r. subst r.
  rewrite handleSubmit_success_eq by assumption. cbn [fst snd].
  split; [reflexivity|].
  split; [simpl; rewrite lookup_insert_ne by done; apply lookup_insert_eq|].
  split; [simpl; apply lookup_insert_eq|].
  split; [apply (persist_session_matches tok (JSON_stringify u))|].
  repeat split. exact Hl.
Qed.

(** When the login page is unmounted while the request is in flight, the
    handler does nothing with the reply: even if the API answered with a
    token, nothing is stored, the default headers are unchanged, no toast
    is shown and no navigation is scheduled. *)
Theorem form_login_abandoned (tok : string) (u : User)
    (s : LoginPage.State) (w : World) :
  LoginPage.loading s = false →
  fields_filled s = true →
  email_well_formed s = true →
  let r := LoginPage.handleSubmit JSON_stringify
             (Success (mkLoginResponse tok u)) true (s, w) in
  r.1 = Resolved tt
  ∧ only_sent_differs w r.2.2
  ∧ sent r.2.2 = (sent w ++ [login_request s w])%list
  ∧ LoginPage.loading r.2.1 = true.
Proof.
  intros Hl Hf He r. subst r.
  rewrite handleSubmit_left_eq by assumption. cbn [fst snd].
  split; [reflexivity|].
  split; [apply only_sent_differs_add_sent|]. split; reflexivity.
Qed.

(** In a browser tab, after a login with a non-empty token, through the
    form or through the session context, the next request carries
    [Authorization: Bearer <token>]. *)
Theorem request_after_login_carries_token {T} (reply : Reply T)
    (endpoint : string) (params : option Payload) (noCache : bool)
    (email password tok : string) (u : User)
    (a : AuthContext.AuthState) (s : LoginPage.State) (w : World) :
  window_defined w = true →
  str_truthy tok = true →
  LoginPage.loading s = false →
  LoginPage.isMounted s = true →
  fields_filled s = true →
  email_well_formed s = true →
  last_header "Authorization"
    (Api.fetchData endpoint params noCache reply
       (LoginPage.handleSubmit JSON_stringify
          (Success (mkLoginResponse tok u)) false (s, w)).2.2).2
  = Some (Api.bearer tok)
  ∧ last_header "Authorization"
      (Api.fetchData endpoint params noCache reply
         (AuthContext.login JSON_stringify email password
            (Success (mkLoginResponse tok u)) (a, w)).2.2).2
    = Some (Api.bearer tok).
Proof.
  intros Hw Ht Hl Hm Hf He.
  rewrite handleSubmit_success_eq by assumption.
  rewrite login_success_eq. cbn [fst snd]. split.
  - match goal with
    | |- last_header _ (Api.fetchData _ _ _ _ ?w1).2 = _ =>
        destruct (helpers_carry_authorization reply endpoint params noCache [] w1)
          as (H & _); [exact Hw|]; rewrite H
    end.
    apply (authorization_after_persist tok (JSON_stringify u)), Ht.
  - match goal with
    | |- last_header _ (Api.fetchData _ _ _ _ ?w1).2 = _ =>
        destruct (helpers_carry_authorization reply endpoint params noCache [] w1)
          as (H & _); [exact Hw|]; rewrite H
    end.
    apply authorization_after_persist, Ht.
Qed.

End FormSuccess.

Lemma form_login_success_witness :
  let r := LoginPage.handleSubmit sample_stringify
             (Success (mkLoginResponse "abc" alice)) false
             (login_form "user@example.com" "secret", anonymous_on_login) in
  localStorage r.2.2 !! "token" = Some "abc"
  ∧ timers r.2.2 = [mkTimer 1000 "/dashboard"]
  ∧ navs r.2.2 = [].
Proof.
  destruct (form_login_success sample_stringify "abc" alice
              (login_form "user@example.com" "secret") anonymous_on_login)
    as (_ & Ht & _ & _ & _ & Hti & Hn & _); [reflexivity ..|].
  split; [exact Ht|]. split; [exact Hti|exact Hn].
Defined.

Lemma form_login_abandoned_witness :
  let r := LoginPage.handleSubmit sample_stringify
             (Success (mkLoginResponse "abc" alice)) true
             (login_form "user@example.com" "secret", anonymous_on_login) in
  localStorage r.2.2 = localStorage anonymous_on_login
  ∧ toasts r.2.2 = toasts anonymous_on_login.
Proof.
  destruct (form_login_abandoned sample_stringify "abc" alice
              (login_form "user@example.com" "secret") anonymous_on_login)
    as (_ & (_ & Hl & _ & _ & _ & _ & _ & Ht & _) & _); [reflexivity ..|].
  split; [exact Hl|exact Ht].
Defined.

Lemma request_after_login_carries_token_witness :
  last_header "Authorization"
    (Api.fetchData (T:=unit) "/products" None true (Success tt)
       (LoginPage.handleSubmit sample_stringify
          (Success (mkLoginResponse "abc" alice)) false
          (login_form "user@example.com" "secret", anonymous_on_login)).2.2).2
  = Some "Bearer abc".
Proof.
  destruct (request_after_login_carries_token sample_stringify (T:=unit)
              (Success tt) "/products" None true "user@example.com" "secret"
              "abc" alice fresh_provider
              (login_form "user@example.com" "secret") anonymous_on_login)
    as (H & _); [reflexivity ..|].
  exact H.
Defined.

(** ** Who counts as logged in: landing page, route guard, login page *)

Lemma truthy_credential (w : World) :
  truthy (localStorage w !! "token") = bool_decide (is_Some (credential w)).
Proof.
  unfold credential. destruct (localStorage w !! "token") as [t|]; [|reflexivity].
  simpl. destruct (str_truthy t); reflexivity.
Qed.

Lemma home_effect_eq (w : World) :
  HomePage.effect w =
    (Resolved tt,
     add_nav (RouterReplace (if truthy (localStorage w !! "token")
                             then "/dashboard" else "/login")) w).
Proof.
  unfold HomePage.effect, bind, localStorage_getItem, gets. cbn [fst snd].
  destruct (truthy _); reflexivity.
Qed.

Lemma login_check_eq (between : World → World) (s : LoginPage.State) (w : World) :
  window_defined w = true →
  LoginPage.isMounted s = true →
  LoginCheck.run between (s, w) =
    (Resolved tt,
     if truthy (localStorage w !! "token")
     then (s, add_nav (RouterReplace "/dashboard") (between w))
     else (check_done s, between w)).
Proof.
  intros Hw Hm.
  unfold LoginCheck.run, LoginCheck.effect, LoginCheck.timeout, bind, liftW,
    typeof_window_defined, localStorage_getItem, getC, gets, modify, ret.
  cbn [fst snd]. rewrite Hw. cbn [negb fst snd]. rewrite Hm.
  destruct (truthy _); cbn [andb fst snd]; rewrite Hm; reflexivity.
Qed.

(** In a browser tab the landing page, the route guard and the check of
    the login page take the same decision from the same test, a non-empty
    stored token.  With one, the landing page and the login page go to
    the dashboard and the guard shows its children without redirecting;
    without one, the landing page and the guard go to the login screen
    and the login page stays and shows its form. *)
Theorem entry_checks_agree {V} (children : V) (s : LoginPage.State) (w : World) :
  window_defined w = true →
  LoginPage.isMounted s = true →
  let home := HomePage.effect w in
  let guard := ProtectedRoute.mount children w in
  let check := LoginCheck.run id (s, w) in
  (is_Some (credential w) →
     navs home.2 = (navs w ++ [RouterReplace "/dashboard"])%list
     ∧ guard.1 = Resolved (Some children)
     ∧ navs guard.2 = navs w
     ∧ navs check.2.2 = (navs w ++ [RouterReplace "/dashboard"])%list
     ∧ LoginPage.isCheckingAuth check.2.1 = LoginPage.isCheckingAuth s)
  ∧ (credential w = None →
       navs home.2 = (navs w ++ [RouterReplace "/login"])%list
       ∧ guard.1 = Resolved None
       ∧ navs guard.2 = (navs w ++ [RouterReplace "/login"])%list
       ∧ navs check.2.2 = navs w
       ∧ LoginPage.isCheckingAuth check.2.1 = false).
Proof.
  intros Hw Hm home guard check. subst home guard check.
  rewrite home_effect_eq, mount_eq, isAuthenticated_credential,
    login_check_eq by assumption.
  rewrite truthy_credential, Hw. cbn [andb fst snd]. split.
  - intros Hc. rewrite (bool_decide_eq_true_2 _ Hc). repeat split.
  - intros Hc. rewrite Hc.
    rewrite (bool_decide_eq_false_2 (is_Some None)) by apply is_Some_None.
    repeat split.
Qed.

Lemma entry_checks_agree_witness :
  navs (HomePage.effect logged_in_on_dashboard).2 = [RouterReplace "/dashboard"]
  ∧ navs (LoginCheck.run id
            (login_form "" "", arrive_at "/login" logged_in_on_dashboard)).2.2
    = [RouterReplace "/dashboard"]
  ∧ navs (LoginCheck.run id (login_form "" "", anonymous_on_login)).2.2 = [].
Proof.
  destruct (entry_checks_agree "children" (login_form "" "") logged_in_on_dashboard)
    as ((Hh & _) & _); [reflexivity|reflexivity|eexists; reflexivity|].
  destruct (entry_checks_agree "children" (login_form "" "")
              (arrive_at "/login" logged_in_on_dashboard))
    as ((_ & _ & _ & Hc & _) & _); [reflexivity|reflexivity|eexists; reflexivity|].
  destruct (entry_checks_agree "children" (login_form "" "") anonymous_on_login)
    as (_ & (_ & _ & _ & Hn & _)); [reflexivity|reflexivity|reflexivity|].
  split; [exact Hh|]. split; [exact Hc|exact Hn].
Defined.

(** The check of the login page decides by the token as it was when the
    page mounted: whatever the rest of the page does to the world during
    the 100 ms before the callback runs, even removing the token, a page
    that mounted with a token stored replaces the location by the
    dashboard and never shows its form; a page that was unmounted before
    the callback does nothing. *)
Theorem login_check_uses_token_at_mount (between : World → World)
    (s : LoginPage.State) (w : World) :
  window_defined w = true →
  let r := LoginCheck.run between (s, w) in
  r.1 = Resolved tt
  ∧ (LoginPage.isMounted s = true → is_Some (credential w) →
       r.2.2 = add_nav (RouterReplace "/dashboard") (between w)
       ∧ r.2.1 = s)
  ∧ (LoginPage.isMounted s = true → credential w = None →
       r.2.2 = between w ∧ r.2.1 = check_done s)
  ∧ (LoginPage.isMounted s = false → r.2.2 = between w ∧ r.2.1 = s).
Proof.
  intros Hw r. subst r.
  destruct (LoginPage.isMounted s) eqn:Hm.
  - rewrite login_check_eq by assumption. rewrite truthy_credential.
    split; [reflexivity|]. split; [|split].
    + intros _ Hc. rewrite (bool_decide_eq_true_2 _ Hc). split; reflexivity.
    + intros _ Hc. rewrite Hc.
      rewrite (bool_decide_eq_false_2 (is_Some None)) by apply is_Some_None.
      split; reflexivity.
    + discriminate.
  - unfold LoginCheck.run, LoginCheck.effect, LoginCheck.timeout, bind, liftW,
      typeof_window_defined, localStorage_getItem, getC, gets, modify, ret.
    cbn [fst snd]. rewrite Hw. cbn [negb fst snd]. rewrite Hm.
    split; [reflexivity|]. split; [discriminate|]. split; [discriminate|].
    intros _. split; reflexivity.
Qed.

Lemma login_check_uses_token_at_mount_witness :
  navs (LoginCheck.run (set_localStorage (delete "token"))
          (login_form "" "", arrive_at "/login" logged_in_on_dashboard)).2.2
  = [RouterReplace "/dashboard"].
Proof.
  destruct (login_check_uses_token_at_mount (set_localStorage (delete "token"))
              (login_form "" "") (arrive_at "/login" logged_in_on_dashboard))
    as (_ & H & _); [reflexivity|].
  destruct H as [H _]; [reflexivity|eexists; reflexivity|].
  rewrite H. reflexivity.
Defined.

(** ** Restoring the session on mount, and the dashboard layout *)

Section MountLaws.

Variable JSON_stringify : User → string.
Variable JSON_parse : string → option User.

Lemma mount_restored_eq (tok su : string) (u : User)
    (a : AuthContext.AuthState) (w : World) :
  localStorage w !! "token" = Some tok →
  str_truthy tok = true →
  localStorage w !! "user" = Some su →
  str_truthy su = true →
  JSON_parse su = Some u →
  AuthMount.effect JSON_parse (a, w) =
    (Resolved AuthMount.Restored,
     (AuthContext.mkAuthState (Some u) (Some tok) false,
      set_defaults_common (<["Authorization" := Api.bearer tok]>) w)).
Proof.
  intros Ht Htt Hu Hut Hp.
  unfold AuthMount.effect, bind, liftW, localStorage_getItem, gets.
  cbn [fst snd]. rewrite Ht, Hu. simpl. rewrite Htt, Hut, Hp. simpl.
  rewrite setAuthToken_some_eq, Htt. reflexivity.
Qed.

Lemma mount_no_session_eq (a : AuthContext.AuthState) (w : World) :
  truthy (localStorage w !! "token") && truthy (localStorage w !! "user") = false →
  AuthMount.effect JSON_parse (a, w) =
    (Resolved AuthMount.NoSession,
     (AuthContext.mkAuthState (AuthContext.user a) (AuthContext.token a) false, w)).
Proof.
  intros H.
  unfold AuthMount.effect, bind, liftW, localStorage_getItem, gets.
  cbn [fst snd]. rewrite H. reflexivity.
Qed.

(** Round trip of the session through local storage: what a successful
    [login] stored is what the session context puts back when it mounts
    again after a reload, on any world with that local storage and any
    default headers: the same user, the same token, and the default
    header [Bearer <token>], without any request.  This needs a non-empty
    token and a [JSON.parse] that inverts [JSON.stringify] on the user. *)
Theorem login_then_mount_restores (email password tok : string) (u : User)
    (a a' : AuthContext.AuthState) (w w' : World) :
  str_truthy tok = true →
  str_truthy (JSON_stringify u) = true →
  JSON_parse (JSON_stringify u) = Some u →
  localStorage w'
  = localStorage (AuthContext.login JSON_stringify email password
                    (Success (mkLoginResponse tok u)) (a, w)).2.2 →
  let r := AuthMount.effect JSON_parse (a', w') in
  r.1 = Resolved AuthMount.Restored
  ∧ AuthContext.user r.2.1 = Some u
  ∧ AuthContext.token r.2.1 = Some tok
  ∧ AuthContext.isLoading r.2.1 = false
  ∧ defaults_common r.2.2 !! "Authorization" = Some (Api.bearer tok)
  ∧ header_matches_store r.2.2
  ∧ localStorage r.2.2 = localStorage w'
  ∧ sent r.2.2 = sent w'.
Proof.
  intros Htt Hut Hp Hls r. subst r.
  rewrite login_success_eq in Hls. cbn [fst snd] in Hls.
  unfold persist_session in Hls. simpl in Hls.
  assert (Ht : localStorage w' !! "token" = Some tok).
  { rewrite Hls. rewrite lookup_insert_ne by done. apply lookup_insert_eq. }
  assert (Hu : localStorage w' !! "user" = Some (JSON_stringify u)).
  { rewrite Hls. apply lookup_insert_eq. }
  rewrite (mount_restored_eq tok (JSON_stringify u) u) by assumption.
  cbn [fst snd]. simpl.
  split; [reflexivity|]. split; [reflexivity|]. split; [reflexivity|].
  split; [reflexivity|]. split; [apply lookup_insert_eq|].
  split; [|split; reflexivity].
  unfold header_matches_store, credential. simpl.
  rewrite Ht, Htt. apply lookup_insert_eq.
Qed.

(** The dashboard layout shows a spinner, and redirects nowhere, while
    the session context is loading.  Once the context has mounted from a
    state without user: if a token or a user record is missing from local
    storage (or empty), the layout renders nothing and pushes the login
    screen, and the default headers are untouched; if both are stored and
    the user record parses, it renders the page and does not navigate. *)
Theorem dashboard_layout_follows_session {V} (children : V) (tok su : string)
    (u : User) (a : AuthContext.AuthState) (w : World) :
  AuthContext.user a = None →
  let r := AuthMount.effect JSON_parse (a, w) in
  (AuthContext.isLoading a = true →
     DashboardLayout.render children a = DashboardLayout.Spinner
     ∧ navs (DashboardLayout.effect a w).2 = navs w)
  ∧ (truthy (localStorage w !! "token") && truthy (localStorage w !! "user") = false →
       r.1 = Resolved AuthMount.NoSession
       ∧ DashboardLayout.render children r.2.1 = DashboardLayout.Nothing
       ∧ navs (DashboardLayout.effect r.2.1 r.2.2).2
         = (navs w ++ [RouterPush "/login"])%list
       ∧ defaults_common r.2.2 = defaults_common w)
  ∧ (localStorage w !! "token" = Some tok → str_truthy tok = true →
     localStorage w !! "user" = Some su → str_truthy su = true →
     JSON_parse su = Some u →
       r.1 = Resolved AuthMount.Restored
       ∧ DashboardLayout.render children r.2.1 = DashboardLayout.Page children
       ∧ navs (DashboardLayout.effect r.2.1 r.2.2).2 = navs w).
Proof.
  intros Hu r. subst r. split; [|split].
  - intros Hl. unfold DashboardLayout.render, DashboardLayout.effect.
    rewrite Hl. split; reflexivity.
  - intros Hn. rewrite mount_no_session_eq by exact Hn. cbn [fst snd].
    unfold DashboardLayout.render, DashboardLayout.effect. simpl. rewrite Hu.
    repeat split.
  - intros Ht Htt Hs Hst Hp.
    rewrite (mount_restored_eq tok su u) by assumption. cbn [fst snd].
    repeat split.
Qed.

End MountLaws.

Lemma login_then_mount_restores_witness :
  let stored := (AuthContext.login sample_stringify "user@example.com" "secret"
                   (Success (mkLoginResponse "abc" alice))
                   (fresh_provider, anonymous_on_login)).2.2 in
  let r := AuthMount.effect (λ _, Some alice)
             (AuthContext.mkAuthState None None true,
              set_defaults_common (λ _, ∅) stored) in
  AuthContext.user r.2.1 = Some alice
  ∧ defaults_common r.2.2 !! "Authorization" = Some "Bearer abc".
Proof.
  intros stored r.
  destruct (login_then_mount_restores sample_stringify (λ _, Some alice)
              "user@example.com" "secret" "abc" alice fresh_provider
              (AuthContext.mkAuthState None None true) anonymous_on_login
              (set_defaults_common (λ _, ∅) stored))
    as (_ & Hu & _ & _ & Hh & _); [reflexivity ..|].
  split; [exact Hu|exact Hh].
Defined.

Lemma dashboard_layout_follows_session_witness :
  let a := AuthContext.mkAuthState None None true in
  let r := AuthMount.effect (λ _, Some alice) (a, anonymous_on_login) in
  DashboardLayout.render "page" a = DashboardLayout.Spinner
  ∧ DashboardLayout.render "page" r.2.1 = DashboardLayout.Nothing
  ∧ navs (DashboardLayout.effect r.2.1 r.2.2).2 = [RouterPush "/login"].
Proof.
  intros a r.
  destruct (dashboard_layout_follows_session (λ _, Some alice) "page" "abc" ""
              alice a anonymous_on_login) as (H1 & H2 & _); [reflexivity|].
  destruct H1 as [Hs _]; [reflexivity|].
  destruct H2 as (_ & Hn & Hp & _); [reflexivity|].
  split; [exact Hs|]. split; [exact Hn|exact Hp].
Defined.

(** ** The profile call: success, and 401 *)

Lemma header_fetchUserProfile_success_eq (d : Header.UserData) (now1 now2 : string)
    (s : Header.State) (w : World) :
  Header.fetchUserProfile (Success d) now1 now2 (s, w) =
    (Resolved tt, (Header.mkState (Some d) false, add_sent (profile_request w) w)).
Proof.
  unfold Header.fetchUserProfile, try_finally, try_catch, bind, liftW,
    Header.setLoading, Header.setUserData, setC, modify.
  cbn [fst snd]. rewrite fetchData_success_eq. reflexivity.
Qed.

Lemma header_fetchUserProfile_401_eq (e : AxiosError) (now1 now2 : string)
    (s : Header.State) (w : World) :
  response_status e = Some 401%N →
  Header.fetchUserProfile (Failure e) now1 now2 (s, w) =
    (Resolved tt,
     (Header.mkState (Some (Header.default_user now1 now2)) false,
      add_nav (LocationReplace "/login")
        (set_localStorage (λ _, ∅)
           (add_console ("Failed to fetch user profile:", DetailError e)
              (add_console ("GET Error:", Api.error_detail e)
                 (after_401 e (add_sent (profile_request w) w))))))).
Proof.
  intros H401.
  unfold Header.fetchUserProfile, try_finally, try_catch, bind, liftW,
    Header.setLoading, Header.setUserData, setC, modify.
  cbn [fst snd]. rewrite fetchData_failure_eq. cbn [fst snd].
  unfold console_error, localStorage_clear, location_replace, modify, bind, ret.
  cbn [fst snd]. rewrite (bool_decide_eq_true_2 _ H401). reflexivity.
Qed.

Lemma sidebar_fetchUserProfile_success_eq (d : Sidebar.UserProfile)
    (s : Sidebar.State) (w : World) :
  Sidebar.fetchUserProfile (Success d) (s, w) =
    (Resolved tt,
     (Sidebar.mkState (Some d) false (Sidebar.showProfileModal s),
      add_sent (profile_request w) w)).
Proof.
  unfold Sidebar.fetchUserProfile, Sidebar.getProfile, try_finally, try_catch,
    bind, liftW, Sidebar.setLoading, Sidebar.setUser, setC, modify.
  cbn [fst snd]. rewrite fetchData_success_eq. reflexivity.
Qed.

(** When the profile call succeeds, the header and the sidebar show the
    record the server sent, stop loading, and change nothing else in the
    world but the log of requests. *)
Theorem profile_success_shows_server_record (hd : Header.UserData)
    (sd : Sidebar.UserProfile) (now1 now2 : string)
    (hs : Header.State) (ss : Sidebar.State) (w : World) :
  let h := Header.fetchUserProfile (Success hd) now1 now2 (hs, w) in
  let s := Sidebar.fetchUserProfile (Success sd) (ss, w) in
  (h.1 = Resolved tt
   ∧ Header.userData h.2.1 = Some hd
   ∧ Header.loading h.2.1 = false
   ∧ only_sent_differs w h.2.2)
  ∧ (s.1 = Resolved tt
     ∧ Sidebar.user s.2.1 = Some sd
     ∧ Sidebar.loading s.2.1 = false
     ∧ only_sent_differs w s.2.2).
Proof.
  intros h s. subst h s.
  rewrite header_fetchUserProfile_success_eq, sidebar_fetchUserProfile_success_eq.
  cbn [fst snd].
  repeat split.
Qed.

(** When the profile call of the header is answered with 401, the header
    does not throw: it empties local storage altogether, every key and
    not only the session, asks for the login screen with
    [window.location.replace], leaves the default headers as they were,
    and still puts the placeholder record into its state. *)
Theorem header_profile_401_wipes_storage (e : AxiosError) (now1 now2 : string)
    (hs : Header.State) (w : World) :
  response_status e = Some 401%N →
  let h := Header.fetchUserProfile (Failure e) now1 now2 (hs, w) in
  h.1 = Resolved tt
  ∧ localStorage h.2.2 = ∅
  ∧ last (navs h.2.2) = Some (LocationReplace "/login")
  ∧ defaults_common h.2.2 = defaults_common w
  ∧ Header.userData h.2.1 = Some (Header.default_user now1 now2)
  ∧ Header.loading h.2.1 = false.
Proof.
  intros H401 h. subst h.
  rewrite header_fetchUserProfile_401_eq by exact H401. cbn [fst snd]. simpl.
  rewrite last_snoc, after_401_defaults. repeat split.
Qed.

Lemma header_profile_401_wipes_storage_witness :
  let w := set_localStorage (<["theme" := "dark"]>) logged_in_on_dashboard in
  let h := Header.fetchUserProfile (Failure (error_with_status 401))
             "2026-01-01T00:00:00.000Z" "2026-01-01T00:00:00.001Z"
             (fresh_header, w) in
  localStorage w !! "theme" = Some "dark"
  ∧ localStorage h.2.2 !! "theme" = None.
Proof.
  intros w h. split; [reflexivity|].
  destruct (header_profile_401_wipes_storage (error_with_status 401)
              "2026-01-01T00:00:00.000Z" "2026-01-01T00:00:00.001Z"
              fresh_header w) as (_ & Hl & _); [reflexivity|].
  subst h. rewrite Hl. apply lookup_empty.
Defined.

(** ** Trimming *)

Lemma append_cons (c : ascii) (a b : string) :
  String c a +:+ b = String c (a +:+ b).
Proof. reflexivity. Qed.

Lemma append_nil_r (a : string) : a +:+ "" = a.
Proof. induction a as [|c a IH]; [reflexivity|]. rewrite append_cons, IH. reflexivity. Qed.

Lemma append_assoc (a b c : string) : (a +:+ b) +:+ c = a +:+ (b +:+ c).
Proof.
  induction a as [|x a IH]; [reflexivity|]. rewrite !append_cons, IH. reflexivity.
Qed.

Lemma all_chars_app (p : ascii → bool) (a b : string) :
  all_chars p (a +:+ b) = all_chars p a && all_chars p b.
Proof.
  induction a as [|c a IH]; simpl; [reflexivity|].
  rewrite IH. apply andb_assoc.
Qed.

Lemma all_chars_impl (p q : ascii → bool) (s : string) :
  (∀ c, p c = true → q c = true) → all_chars p s = true → all_chars q s = true.
Proof.
  intros Hpq. induction s as [|c s IH]; simpl; [reflexivity|].
  intros H. apply andb_true_iff in H as [Hc Hs].
  rewrite (Hpq c Hc), (IH Hs). reflexivity.
Qed.

Lemma trimStart_split (s : string) :
  ∃ a, s = a +:+ Js.trimStart s
       ∧ all_chars Js.is_space a = true
       ∧ ∀ c, first_char (Js.trimStart s) = Some c → Js.is_space c = false.
Proof.
  induction s as [|c s (a & Hs & Ha & Hf)]; simpl.
  - exists "". repeat split. discriminate.
  - destruct (Js.is_space c) eqn:Hc.
    + exists (String c a). simpl. rewrite Hc, Ha.
      split; [rewrite append_cons; f_equal; exact Hs|].
      split; [reflexivity|exact Hf].
    + exists "". repeat split. simpl. intros c' Hc'. congruence.
Qed.

Lemma trimEnd_split (s : string) :
  ∃ b, s = Js.trimEnd s +:+ b
       ∧ all_chars Js.is_space b = true
       ∧ ∀ c, last_char (Js.trimEnd s) = Some c → Js.is_space c = false.
Proof.
  induction s as [|c s (b & Hs & Hb & Hl)]; simpl.
  - exists "". repeat split. discriminate.
  - destruct (Js.trimEnd s) as [|c' r'] eqn:E.
    + change (s = b) in Hs. subst b. destruct (Js.is_space c) eqn:Hc.
      * exists (String c s). simpl. rewrite Hc, Hb. repeat split. discriminate.
      * exists s. repeat split; [exact Hb|]. simpl. congruence.
    + exists b. split; [rewrite append_cons; f_equal; exact Hs|].
      split; [exact Hb|].
      intros c0 Hc0. apply Hl. exact Hc0.
Qed.

Lemma trimEnd_first (s : string) (c : ascii) :
  first_char s = Some c → Js.is_space c = false →
  first_char (Js.trimEnd s) = Some c.
Proof.
  destruct s as [|c0 r]; simpl; [discriminate|].
  intros [= ->] Hc. destruct (Js.trimEnd r); [rewrite Hc|]; reflexivity.
Qed.



Lemma trim_first (s : string) (c : ascii) :
  first_char (Js.trim s) = Some c → Js.is_space c = false.
Proof.
  unfold Js.trim. destruct (trimStart_split s) as (a & _ & _ & Hf).
  destruct (Js.trimStart s) as [|c0 r] eqn:E; [simpl; discriminate|].
  pose proof (Hf c0 eq_refl) as Hc0.
  rewrite (trimEnd_first (String c0 r) c0 eq_refl Hc0). congruence.
Qed.

Lemma trim_split (s : string) :
  ∃ a b, s = a +:+ Js.trim s +:+ b
         ∧ all_chars Js.is_space a = true
         ∧ all_chars Js.is_space b = true.
Proof.
  unfold Js.trim.
  destruct (trimStart_split s) as (a & Hs & Ha & _).
  destruct (trimEnd_split (Js.trimStart s)) as (b & Hb & Hbs & _).
  exists a, b. split; [|split; assumption].
  rewrite <- Hb. exact Hs.
Qed.

Lemma trim_blank_iff (s : string) :
  str_truthy (Js.trim s) = false ↔ all_chars Js.is_space s = true.
Proof.
  destruct (trim_split s) as (a & b & Hs & Ha & Hb). split.
  - intros Ht. destruct (Js.trim s) eqn:E; [|discriminate].
    rewrite Hs, !all_chars_app, Ha, Hb. reflexivity.
  - intros Hall. destruct (Js.trim s) as [|c r] eqn:E; [reflexivity|].
    exfalso. rewrite Hs in Hall.
    rewrite all_chars_app in Hall. apply andb_true_iff in Hall as [_ Hall].
    simpl in Hall. apply andb_true_iff in Hall as [Hc _].
    assert (Hf : first_char (Js.trim s) = Some c) by (rewrite E; reflexivity).
    apply trim_first in Hf. congruence.
Qed.



(** ** The email pattern *)

Lemma append_eq_nil (a b : string) : a +:+ b = "" → a = "" ∧ b = "".
Proof. destruct a; [intros H; split; [reflexivity|exact H]|discriminate]. Qed.

Lemma nullable_matches (r : Js.RegExp) : Js.nullable r = true ↔ Matches r "".
Proof.
  split.
  - induction r as [| |p|r1 IH1 r2 IH2|r1 IH1 r2 IH2|r IH]; simpl; intros H.
    + discriminate.
    + constructor.
    + discriminate.
    + apply andb_true_iff in H as [H1 H2].
      apply (MCat r1 r2 "" ""); auto.
    + apply orb_true_iff in H as [H|H]; [apply MAltL|apply MAltR]; auto.
    + constructor.
  - intros H. remember "" as s eqn:Hs.
    induction H as [|p c Hp|r1 r2 s1 s2 H1 IH1 H2 IH2|r1 r2 s H IH|r1 r2 s H IH
                    |r|r s1 s2 H1 IH1 H2 IH2]; simpl.
    + reflexivity.
    + discriminate.
    + apply append_eq_nil in Hs as [-> ->]. rewrite IH1, IH2; reflexivity.
    + rewrite IH; [reflexivity|exact Hs].
    + rewrite IH; [apply orb_true_r|exact Hs].
    + reflexivity.
    + reflexivity.
Qed.

Lemma deriv_sound (c : ascii) (r : Js.RegExp) :
  ∀ s, Matches (Js.deriv c r) s → Matches r (String c s).
Proof.
  induction r as [| |p|r1 IH1 r2 IH2|r1 IH1 r2 IH2|r IH]; simpl; intros s H.
  - inversion H.
  - inversion H.
  - destruct (p c) eqn:Hp; inversion H; subst. constructor. exact Hp.
  - destruct (Js.nullable r1) eqn:Hn.
    + inversion H as [| | | ? ? ? H'| ? ? ? H'| |]; subst.
      * inversion H' as [| |? ? s1 s2 Ha Hb| | | |]; subst.
        rewrite <- append_cons. constructor; auto.
      * change (String c s) with ("" +:+ String c s).
        constructor; [apply nullable_matches; exact Hn|auto].
    + inversion H as [| |? ? s1 s2 Ha Hb| | | |]; subst.
      rewrite <- append_cons. constructor; auto.
  - inversion H; subst; [apply MAltL|apply MAltR]; auto.
  - inversion H as [| |? ? s1 s2 Ha Hb| | | |]; subst.
    rewrite <- append_cons. constructor; auto.
Qed.

Lemma deriv_complete (r : Js.RegExp) (t : string) :
  Matches r t → ∀ c s, t = String c s → Matches (Js.deriv c r) s.
Proof.
  induction 1 as [|p c0 Hp|r1 r2 s1 s2 H1 IH1 H2 IH2|r1 r2 s0 H IH|r1 r2 s0 H IH
                  |r|r s1 s2 H1 IH1 H2 IH2]; intros c s Ht; simpl.
  - discriminate.
  - injection Ht as -> <-. rewrite Hp. constructor.
  - destruct s1 as [|c1 s1'].
    + change (s2 = String c s) in Ht.
      assert (Hn : Js.nullable r1 = true) by (apply nullable_matches; exact H1).
      rewrite Hn. apply MAltR. apply IH2. exact Ht.
    + rewrite append_cons in Ht. injection Ht as -> <-.
      assert (Hd : Matches (Js.Cat (Js.deriv c r1) r2) (s1' +:+ s2))
        by (constructor; [apply IH1; reflexivity|exact H2]).
      destruct (Js.nullable r1); [apply MAltL|]; exact Hd.
  - apply MAltL. apply IH. exact Ht.
  - apply MAltR. apply IH. exact Ht.
  - discriminate.
  - destruct s1 as [|c1 s1'].
    + change (s2 = String c s) in Ht. apply (IH2 c s Ht).
    + rewrite append_cons in Ht. injection Ht as -> <-.
      constructor; [apply IH1; reflexivity|exact H2].
Qed.

Lemma test_matches (s : string) : ∀ r, Js.test r s = true ↔ Matches r s.
Proof.
  induction s as [|c s IH]; intros r; simpl.
  - apply nullable_matches.
  - rewrite IH. split; [apply deriv_sound|].
    intros H. apply (deriv_complete r _ H). reflexivity.
Qed.

Lemma matches_star_class (p : ascii → bool) (s : string) :
  Matches (Js.Star (Js.Class p)) s ↔ all_chars p s = true.
Proof.
  split.
  - intros H. remember (Js.Star (Js.Class p)) as r eqn:Hr.
    induction H as [| | | | | |r0 s1 s2 H1 _ H2 IH2]; try discriminate.
    + reflexivity.
    + injection Hr as ->. inversion H1; subst.
      rewrite append_cons. simpl.
      match goal with Hp : p _ = true |- _ => rewrite Hp end.
      apply IH2. reflexivity.
  - induction s as [|c s IH]; simpl; intros H.
    + constructor.
    + apply andb_true_iff in H as [Hc Hs].
      change (String c s) with (String c "" +:+ s).
      constructor; [constructor; exact Hc|apply IH; exact Hs].
Qed.

Lemma matches_plus_class (p : ascii → bool) (s : string) :
  Matches (Js.Plus (Js.Class p)) s ↔ s ≠ "" ∧ all_chars p s = true.
Proof.
  unfold Js.Plus. split.
  - intros H. inversion H as [| |? ? s1 s2 Ha Hb| | | |]; subst.
    inversion Ha; subst. rewrite append_cons. split; [discriminate|].
    simpl. match goal with Hp : p _ = true |- _ => rewrite Hp end.
    apply matches_star_class. exact Hb.
  - intros [Hne H]. destruct s as [|c s]; [congruence|].
    simpl in H. apply andb_true_iff in H as [Hc Hs].
    change (String c s) with (String c "" +:+ s).
    constructor; [constructor; exact Hc|apply matches_star_class; exact Hs].
Qed.

Lemma matches_lit (a : ascii) (s : string) :
  Matches (Js.lit a) s ↔ s = String a "".
Proof.
  unfold Js.lit. split.
  - intros H. inversion H as [|? c Hc| | | | |]; subst.
    apply bool_decide_eq_true_1 in Hc. subst. reflexivity.
  - intros ->. constructor. apply bool_decide_eq_true_2. reflexivity.
Qed.

Lemma emailRegex_shape (s : string) :
  Js.test LoginPage.emailRegex s = true ↔ email_shape s.
Proof.
  rewrite test_matches. unfold LoginPage.emailRegex, LoginPage.notSpaceAt, email_shape.
  fold email_char. split.
  - intros H.
    inversion H as [| |? ? a s1 Ha H1| | | |]; subst.
    inversion H1 as [| |? ? x s2 Hx H2| | | |]; subst.
    inversion H2 as [| |? ? b s3 Hb H3| | | |]; subst.
    inversion H3 as [| |? ? y d Hy Hd| | | |]; subst.
    apply matches_lit in Hx, Hy. subst x y.
    apply (matches_plus_class email_char) in Ha as [Ha1 Ha2].
    apply (matches_plus_class email_char) in Hb as [Hb1 Hb2].
    apply (matches_plus_class email_char) in Hd as [Hd1 Hd2].
    exists a, b, d. repeat split; assumption.
  - intros (a & b & d & -> & Ha & Hb & Hd & Ha' & Hb' & Hd').
    constructor; [apply (matches_plus_class email_char); split; assumption|].
    constructor; [apply matches_lit; reflexivity|].
    constructor; [apply (matches_plus_class email_char); split; assumption|].
    constructor; [apply matches_lit; reflexivity|].
    apply (matches_plus_class email_char); split; assumption.
Qed.

(** The emails the login form accepts are exactly the strings
    [local@domain.tld] whose three parts are non-empty and made of
    characters that are neither white space nor "@" (dots are allowed in
    every part): an accepted email holds no white space, and no "@"
    other than the one separating the local part. *)
Theorem email_accepted_iff (s : string) :
  Js.test LoginPage.emailRegex s = true
  ↔ ∃ a b d, s = a +:+ "@" +:+ b +:+ "." +:+ d
             ∧ a ≠ "" ∧ b ≠ "" ∧ d ≠ ""
             ∧ all_chars email_char a = true
             ∧ all_chars email_char b = true
             ∧ all_chars email_char d = true.
Proof. apply emailRegex_shape. Qed.

Lemma email_accepted_iff_witness :
  Js.test LoginPage.emailRegex "user@example.com" = true.
Proof.
  apply (email_accepted_iff "user@example.com").
  exists "user", "example", "com".
  split; [reflexivity|]. repeat split; try discriminate; reflexivity.
Defined.

(** ** The search box *)

Example encodeURIComponent_samples :
  Search.encodeURIComponent [97; 32; 98; 38; 99; 61; 100]%N = Some "a%20b%26c%3Dd"
  ∧ Search.encodeURIComponent [233]%N = Some "%C3%A9"
  ∧ Search.encodeURIComponent [8364]%N = Some "%E2%82%AC"
  ∧ Search.encodeURIComponent [55357; 56832]%N = Some "%F0%9F%98%80"
  ∧ Search.encodeURIComponent [97; 55357]%N = None
  ∧ Search.encodeURIComponent [56832; 97]%N = None.
Proof. repeat split; reflexivity. Qed.

Lemma search_trimEnd_nil (q : list N) :
  Search.trimEnd q = [] ↔ forallb Search.is_space q = true.
Proof.
  induction q as [|u r IH]; simpl; [tauto|].
  destruct (Search.trimEnd r) as [|v r'] eqn:E.
  - destruct (Search.is_space u); simpl.
    + split; [intros _; apply IH; reflexivity|reflexivity].
    + split; discriminate.
  - split; [discriminate|].
    intros H. apply andb_true_iff in H as [_ H]. apply IH in H. discriminate.
Qed.

Lemma search_trimStart_blank (q : list N) :
  forallb Search.is_space (Search.trimStart q) = forallb Search.is_space q.
Proof.
  induction q as [|u r IH]; simpl; [reflexivity|].
  destruct (Search.is_space u) eqn:E; simpl; [exact IH|].
  rewrite E. reflexivity.
Qed.

Lemma search_trim_blank (q : list N) :
  Search.nonempty (Search.trim q) = negb (forallb Search.is_space q).
Proof.
  unfold Search.trim. rewrite <- search_trimStart_blank.
  destruct (Search.trimEnd (Search.trimStart q)) as [|v r] eqn:E; simpl.
  - apply search_trimEnd_nil in E. rewrite E. reflexivity.
  - destruct (forallb _ _) eqn:F; [|reflexivity].
    apply search_trimEnd_nil in F. congruence.
Qed.

Lemma unreserved_bound (u : N) : Search.unreserved u = true → (u < 128)%N.
Proof.
  unfold Search.unreserved. simpl.
  rewrite !orb_true_iff, !andb_true_iff, !N.leb_le, !N.eqb_eq. lia.
Qed.

Lemma unreserved_not_surrogate (u : N) :
  Search.unreserved u = true → Search.is_lead u = false ∧ Search.is_trail u = false.
Proof.
  intros H. apply unreserved_bound in H. unfold Search.is_lead, Search.is_trail.
  split; apply andb_false_iff; left; apply N.leb_gt; lia.
Qed.

Lemma hex_digit_safe (d : N) : (d < 16)%N → url_safe (Search.hex_digit d) = true.
Proof.
  intros H. destruct d as [|p]; [reflexivity|].
  do 4 (destruct p as [p|p|]; try reflexivity; try lia).
Qed.

Lemma percent_safe (b : N) :
  (b < 256)%N → all_chars url_safe (Search.percent b) = true.
Proof.
  intros H. unfold Search.percent. simpl.
  rewrite !hex_digit_safe; [reflexivity| |].
  - apply N.mod_lt. discriminate.
  - apply N.Div0.div_lt_upper_bound. exact H.
Qed.

Lemma utf8_octets (cp : N) :
  (cp < 1114112)%N → Forall (λ b, (b < 256)%N) (Search.utf8 cp).
Proof.
  intros H. unfold Search.utf8.
  assert (H64 : ∀ x, (x mod 64 < 64)%N) by (intros x; apply N.mod_lt; discriminate).
  destruct (N.ltb_spec cp 128); [repeat constructor; lia|].
  destruct (N.ltb_spec cp 2048).
  { assert (cp / 64 < 32)%N by (apply N.Div0.div_lt_upper_bound; lia).
    pose proof (H64 cp). repeat constructor; lia. }
  destruct (N.ltb_spec cp 65536).
  { assert (cp / 4096 < 16)%N by (apply N.Div0.div_lt_upper_bound; lia).
    pose proof (H64 cp). pose proof (H64 (cp / 64)%N). repeat constructor; lia. }
  assert (cp / 262144 < 5)%N by (apply N.Div0.div_lt_upper_bound; lia).
  pose proof (H64 cp). pose proof (H64 (cp / 64)%N). pose proof (H64 (cp / 4096)%N).
  repeat constructor; lia.
Qed.

Lemma escape_safe (cp : N) :
  (cp < 1114112)%N → all_chars url_safe (Search.escape cp) = true.
Proof.
  intros H. unfold Search.escape.
  induction (utf8_octets cp H) as [|b l Hb _ IH]; [reflexivity|].
  cbn [foldr]. rewrite all_chars_app, (percent_safe b Hb), IH. reflexivity.
Qed.

Lemma pair_code_point_bound (u v : N) :
  Search.is_lead u = true → Search.is_trail v = true →
  (Search.pair_code_point u v < 1114112)%N.
Proof.
  unfold Search.is_lead, Search.is_trail, Search.pair_code_point.
  rewrite !andb_true_iff, !N.leb_le. lia.
Qed.

(** Facts about the encoding are proved for every query of a given
    length or less, since a surrogate pair takes two code units at once. *)
Lemma encodeURIComponent_facts (n : nat) :
  ∀ q : list N, (List.length q ≤ n)%nat → Forall (λ u, (u < 65536)%N) q →
    (is_Some (Search.encodeURIComponent q) ↔ well_paired q = true)
    ∧ ∀ enc, Search.encodeURIComponent q = Some enc →
        all_chars url_safe enc = true.
Proof.
  induction n as [|n IH]; intros q Hn Hq.
  { destruct q; [|simpl in Hn; lia]. simpl. split; [split; eauto|].
    intros enc [= <-]. reflexivity. }
  destruct q as [|u r]; [simpl; split; [split; eauto|intros enc [= <-]; reflexivity]|].
  simpl in Hn. inversion Hq as [|? ? Hu Hr]; subst.
  destruct (IH r) as [IHw IHs]; [lia|exact Hr|].
  cbn [Search.encodeURIComponent well_paired].
  destruct (Search.unreserved u) eqn:Eu.
  - destruct (unreserved_not_surrogate u Eu) as [El Et]. rewrite El, Et.
    cbn [negb andb]. split.
    + rewrite <- IHw. rewrite fmap_is_Some. reflexivity.
    + intros enc Henc. apply fmap_Some in Henc as (rest & Hrest & ->).
      simpl. rewrite (IHs rest Hrest), andb_true_r.
      unfold url_safe. rewrite N_ascii_embedding;
        [rewrite Eu; reflexivity|apply unreserved_bound in Eu; lia].
  - destruct (Search.is_lead u) eqn:El.
    + destruct r as [|v r']; [split; [split; [intros [? [=]]|discriminate]|discriminate]|].
      inversion Hr as [|? ? Hv Hr']; subst. simpl in Hn.
      destruct (IH r') as [IHw' IHs']; [lia|exact Hr'|].
      destruct (Search.is_trail v) eqn:Ev; cbn [andb].
      * split.
        -- rewrite <- IHw'. rewrite fmap_is_Some. reflexivity.
        -- intros enc Henc. apply fmap_Some in Henc as (rest & Hrest & ->).
           rewrite all_chars_app, (IHs' rest Hrest), escape_safe;
             [reflexivity|apply pair_code_point_bound; assumption].
      * split; [split; [intros [? [=]]|discriminate]|discriminate].
    + destruct (Search.is_trail u) eqn:Et; cbn [negb andb].
      * split; [split; [intros [? [=]]|discriminate]|discriminate].
      * split.
        -- rewrite <- IHw. rewrite fmap_is_Some. reflexivity.
        -- intros enc Henc. apply fmap_Some in Henc as (rest & Hrest & ->).
           rewrite all_chars_app, (IHs rest Hrest), escape_safe; [reflexivity|lia].
Qed.

Lemma below_surrogates_well_paired (q : list N) :
  Forall (λ u, (u < 55296)%N) q → well_paired q = true.
Proof.
  induction 1 as [|u r Hu _ IH]; [reflexivity|]. simpl.
  assert (El : Search.is_lead u = false)
    by (apply andb_false_iff; left; apply N.leb_gt; lia).
  assert (Et : Search.is_trail u = false)
    by (apply andb_false_iff; left; apply N.leb_gt; lia).
  rewrite El, Et, IH. reflexivity.
Qed.

(** Submitting the search box with a query that is empty or only white
    space does nothing.  For any other query of UTF-16 code units: if
    every surrogate in it is part of a pair (as in any query without
    code units from 0xD800 on), the handler makes exactly one push, to
    [/dashboard/search?q=] followed by the encoded query; if a surrogate
    stands alone, [encodeURIComponent] throws a URIError and nothing is
    pushed.  An encoded query is made of unreserved characters and
    percent escapes only: it holds none of [&], [=], [#], [?], [/], [+]
    or a space, so the query text cannot end the parameter or add
    another one. *)
Theorem search_pushes_one_safe_url (q : list N) (w : World) :
  Forall (λ u, (u < 65536)%N) q →
  let r := Search.handleSearch q w in
  (forallb Search.is_space q = true → r = (Resolved Search.Returned, w))
  ∧ (forallb Search.is_space q = false → well_paired q = true →
       ∃ enc, Search.encodeURIComponent q = Some enc
              ∧ r = (Resolved Search.Returned,
                     add_nav (RouterPush ("/dashboard/search?q=" +:+ enc)) w))
  ∧ (forallb Search.is_space q = false → well_paired q = false →
       Search.encodeURIComponent q = None ∧ r = (Resolved Search.URIError, w))
  ∧ (Forall (λ u, (u < 55296)%N) q → well_paired q = true)
  ∧ (∀ enc, Search.encodeURIComponent q = Some enc →
       all_chars url_safe enc = true
       ∧ ∀ c, c ∈ ["&"; "="; "#"; "?"; "/"; "+"; " "]%char →
           all_chars (λ x, negb (bool_decide (x = c))) enc = true).
Proof.
  intros Hq r. subst r. unfold Search.handleSearch.
  rewrite search_trim_blank.
  destruct (encodeURIComponent_facts (List.length q) q (le_n _) Hq) as [Hw Hs].
  split; [intros ->; reflexivity|]. split; [|split; [|split]].
  - intros -> Hp. apply Hw in Hp as [enc Henc]. exists enc.
    split; [exact Henc|]. cbn [negb]. rewrite Henc. reflexivity.
  - intros -> Hp. cbn [negb].
    destruct (Search.encodeURIComponent q) as [enc|] eqn:E; [|split; reflexivity].
    exfalso. assert (Hsome : is_Some (Some enc)) by eauto.
    apply Hw in Hsome. congruence.
  - apply below_surrogates_well_paired.
  - intros enc Henc. pose proof (Hs enc Henc) as Hsafe. split; [exact Hsafe|].
    intros c Hc. apply (all_chars_impl url_safe); [|exact Hsafe].
    intros x Hx. apply negb_true_iff, bool_decide_eq_false_2. intros ->.
    repeat (apply elem_of_cons in Hc as [->|Hc]; [discriminate Hx|]).
    apply elem_of_nil in Hc. exact Hc.
Qed.

Lemma search_pushes_one_safe_url_witness :
  navs (Search.handleSearch [97; 32; 98; 38; 99; 61; 100]%N anonymous_on_login).2
  = [RouterPush "/dashboard/search?q=a%20b%26c%3Dd"]
  ∧ Search.handleSearch [32; 8195; 9]%N anonymous_on_login
    = (Resolved Search.Returned, anonymous_on_login)
  ∧ Search.handleSearch [97; 55357]%N anonymous_on_login
    = (Resolved Search.URIError, anonymous_on_login).
Proof.
  destruct (search_pushes_one_safe_url [97; 32; 98; 38; 99; 61; 100]%N
              anonymous_on_login) as (_ & H1 & _);
    [repeat constructor|].
  destruct (search_pushes_one_safe_url [32; 8195; 9]%N anonymous_on_login)
    as (H2 & _); [repeat constructor|].
  destruct (search_pushes_one_safe_url [97; 55357]%N anonymous_on_login)
    as (_ & _ & H3 & _); [repeat constructor|].
  destruct H1 as (enc & Henc & Hr); [reflexivity|reflexivity|].
  destruct H3 as [_ H3]; [reflexivity|reflexivity|].
  split; [rewrite Hr; injection Henc as <-; reflexivity|].
  split; [apply H2; reflexivity|exact H3].
Defined.

(** ** The profile helpers *)

Lemma error_contract_add_console {T} (e : AxiosError) (w w1 : World)
    (l : string * ConsoleDetail) :
  error_contract (T:=T) e w (Thrown e, w1) →
  error_contract (T:=T) e w (Thrown e, add_console l w1).
Proof. intros H. exact H. Qed.

(** [getProfile] and [updateProfile] add nothing to the contract of the
    request client but a console line.  On success they return what
    [fetchData] and [putData] return, in the same world.  On an error, in
    a browser tab, they rethrow the same error, and the session is
    cleared with a redirect exactly on a 401 away from the login screen;
    the console then holds the line of the request helper followed by
    their own. *)
Theorem profile_helpers_inherit_contract {T} (d : T) (e : AxiosError)
    (body : Payload) (w : World) :
  window_defined w = true →
  ProfileApi.getProfile (Success d) w
  = Api.fetchData "/auth/profile" None true (Success d) w
  ∧ ProfileApi.updateProfile body (Success d) w
    = Api.putData "/auth/profile" body (Success d) w
  ∧ error_contract e w (ProfileApi.getProfile (T:=T) (Failure e) w)
  ∧ error_contract e w (ProfileApi.updateProfile (T:=T) body (Failure e) w)
  ∧ console (ProfileApi.getProfile (T:=T) (Failure e) w).2
    = (console w ++ [("GET Error:", Api.error_detail e);
                      ("Profile fetch error:", DetailError e)])%list
  ∧ console (ProfileApi.updateProfile (T:=T) body (Failure e) w).2
    = (console w ++ [("PUT Error:", Api.error_detail e);
                      ("Profile update error:", DetailError e)])%list.
Proof.
  intros Hw. unfold ProfileApi.getProfile, ProfileApi.updateProfile, try_catch.
  rewrite fetchData_success_eq, putData_success_eq, fetchData_failure_eq,
    putData_failure_eq.
  unfold bind, console_error, modify, throw. cbn [fst snd].
  split; [reflexivity|]. split; [reflexivity|].
  split; [apply error_contract_add_console, error_contract_after_401, Hw|].
  split; [apply error_contract_add_console, error_contract_after_401, Hw|].
  assert (Hc : ∀ cfg, console (after_401 e (add_sent cfg w)) = console w).
  { intros cfg. unfold after_401. destruct (fires_401 e _); reflexivity. }
  simpl. rewrite !Hc, <- !app_assoc. split; reflexivity.
Qed.

Lemma profile_helpers_inherit_contract_witness :
  (ProfileApi.updateProfile (T:=unit) [("name", "Alice")]
     (Failure (error_with_status 401)) logged_in_on_dashboard).1
  = Thrown (error_with_status 401)
  ∧ localStorage
      (ProfileApi.updateProfile (T:=unit) [("name", "Alice")]
         (Failure (error_with_status 401)) logged_in_on_dashboard).2
    !! "token" = None.
Proof.
  destruct (profile_helpers_inherit_contract tt (error_with_status 401)
              [("name", "Alice")] logged_in_on_dashboard)
    as (_ & _ & _ & (Ht & Hiff & _) & _); [reflexivity|].
  split; [exact Ht|].
  destruct Hiff as [_ Hc]. destruct Hc as [[Hc _] _]; [|exact Hc].
  split; [reflexivity|discriminate].
Defined.

(** ** What the login form does with a submission *)

Section FormDecisions.

Variable JSON_stringify : User → string.

Lemma fields_filled_iff (s : LoginPage.State) :
  fields_filled s = false
  ↔ all_chars Js.is_space (LoginPage.email (LoginPage.formData s)) = true
    ∨ all_chars Js.is_space (LoginPage.password (LoginPage.formData s)) = true.
Proof.
  unfold fields_filled. rewrite andb_false_iff, !trim_blank_iff. reflexivity.
Qed.

Lemma handleSubmit_valid_sent (reply : Reply LoginResponse) (unmounts : bool)
    (s : LoginPage.State) (w : World) :
  LoginPage.loading s = false →
  LoginPage.isMounted s = true →
  fields_filled s = true →
  email_well_formed s = true →
  sent (LoginPage.handleSubmit JSON_stringify reply unmounts (s, w)).2.2
  = (sent w ++ [login_request s w])%list.
Proof.
  intros Hl Hm Hf He. destruct unmounts.
  - rewrite handleSubmit_left_eq by assumption. cbn [fst snd].
    destruct reply; simpl; [reflexivity|]. rewrite after_401_sent. reflexivity.
  - destruct reply as [[tok u]|e].
    + rewrite handleSubmit_success_eq by assumption. reflexivity.
    + rewrite handleSubmit_failure_eq by assumption. cbn [fst snd]. simpl.
      rewrite after_401_sent. reflexivity.
Qed.

(** The three things the login form can do with a submission when it is
    mounted and not already busy.  If the email or the password is empty
    or only white space, it shows "Please fill in all fields" and nothing
    else happens.  Otherwise, if the email is not of the form
    [local@domain.tld], it shows "Please enter a valid email address" and
    nothing else happens.  Otherwise it dispatches exactly one request, a
    POST to [/auth/login] whose body is the email and password as
    typed. *)
Theorem form_submission_decisions (reply : Reply LoginResponse) (unmounts : bool)
    (s : LoginPage.State) (w : World) :
  LoginPage.loading s = false →
  LoginPage.isMounted s = true →
  let email := LoginPage.email (LoginPage.formData s) in
  let password := LoginPage.password (LoginPage.formData s) in
  let r := LoginPage.handleSubmit JSON_stringify reply unmounts (s, w) in
  (all_chars Js.is_space email = true ∨ all_chars Js.is_space password = true →
     r = (Resolved tt, (s, add_toast (ToastError "Please fill in all fields") w)))
  ∧ (all_chars Js.is_space email = false →
     all_chars Js.is_space password = false →
     ¬ email_shape email →
       r = (Resolved tt,
            (s, add_toast (ToastError "Please enter a valid email address") w)))
  ∧ (all_chars Js.is_space password = false →
     email_shape email →
       sent r.2.2 = (sent w ++ [login_request s w])%list
       ∧ request_shape POST "/auth/login" None
           (Some [("email", email); ("password", password)]) (login_request s w)).
Proof.
  intros Hl Hm email password r. subst email password r. split; [|split].
  - intros Hblank. apply fields_filled_iff in Hblank.
    apply handleSubmit_unfilled_eq; assumption.
  - intros He Hp Hshape.
    assert (Hf : fields_filled s = true).
    { destruct (fields_filled s) eqn:E; [reflexivity|].
      apply fields_filled_iff in E as [E|E]; congruence. }
    apply handleSubmit_malformed_eq; [assumption ..|].
    unfold email_well_formed.
    destruct (Js.test _ _) eqn:E; [|reflexivity].
    apply emailRegex_shape in E. contradiction.
  - intros Hp Hshape.
    assert (He : email_well_formed s = true) by (apply emailRegex_shape; exact Hshape).
    assert (Hf : fields_filled s = true).
    { destruct (fields_filled s) eqn:E; [reflexivity|].
      apply fields_filled_iff in E as [E|E]; [|congruence].
      exfalso. destruct Hshape as (a & b & d & Hs & Ha & _ & _ & Ha' & _).
      rewrite Hs in E. destruct a as [|c a]; [congruence|].
      simpl in E, Ha'. apply andb_true_iff in E as [E _].
      apply andb_true_iff in Ha' as [Ha' _].
      unfold email_char in Ha'. rewrite E in Ha'. discriminate. }
    split; [apply handleSubmit_valid_sent; assumption|].
    apply dispatched_config_shape.
Qed.

End FormDecisions.

Lemma form_submission_decisions_witness :
  (LoginPage.handleSubmit sample_stringify
     (Success (mkLoginResponse "abc" alice)) false
     (login_form "user@example.com" "  ", anonymous_on_login))
  = (Resolved tt,
     (login_form "user@example.com" "  ",
      add_toast (ToastError "Please fill in all fields") anonymous_on_login))
  ∧ (req_data <$>
       sent (LoginPage.handleSubmit sample_stringify
               (Success (mkLoginResponse "abc" alice)) false
               (login_form "user@example.com" "secret", anonymous_on_login)).2.2)
    = [Some [("email", "user@example.com"); ("password", "secret")]].
Proof.
  destruct (form_submission_decisions sample_stringify
              (Success (mkLoginResponse "abc" alice)) false
              (login_form "user@example.com" "  ") anonymous_on_login)
    as (H1 & _); [reflexivity|reflexivity|].
  destruct (form_submission_decisions sample_stringify
              (Success (mkLoginResponse "abc" alice)) false
              (login_form "user@example.com" "secret") anonymous_on_login)
    as (_ & _ & H3); [reflexivity|reflexivity|].
  split; [apply H1; right; reflexivity|].
  destruct H3 as [Hs _]; [reflexivity| |rewrite Hs; reflexivity].
  exists "user", "example", "com".
  split; [reflexivity|]. repeat split; try discriminate; reflexivity.
Defined.
